(** * Keycloak OIDC middleware (fastapi_oidc_mw.py): model and properties

    A shallow embedding of [KeycloakOIDCMiddleware]: the discovery
    bootstrap ([init]), the JWKS cache ([get_jwks_keys]), token validation
    ([validate_token]), the role check ([has_role]) and the FastAPI
    dependencies built on them.

    Modelling choices.
    - Decoded JSON is the inductive [json]; a Python [dict] with string
      keys is an association list read by first match ([json.loads]
      yields unique keys).  JSON numbers are integers.
    - [time.time()] is an integer clock reading passed as [now]; the
      staleness test is the source's [(now - last) > ttl].
    - The HTTP server is an oracle [net : json -> http_reply] from the
      requested URL to what the three lines [client.get],
      [raise_for_status], [response.json()] produce.
    - The instance [self] is threaded through a state-and-exception monad
      that also logs the outgoing calls (HTTP GETs and [jwt.decode]);
      assignments made before a [raise] stay visible, as in Python.
    - python-jose ([jwk.construct], [jwt.get_unverified_header],
      [jwt.decode]) is an interface, the class [Jose]. *)

From stdpp Require Import base option list strings gmap fin_maps.
From Stdlib Require Import ZArith Lia.

#[local] Set Warnings "-register-all".
Local Open Scope string_scope.
Local Open Scope Z_scope.

(** ** Python values *)

Inductive json : Type :=
  | JNull
  | JBool (b : bool)
  | JNum (n : Z)
  | JStr (s : string)
  | JArr (items : list json)
  | JObj (fields : list (string * json)).

Abbreviation dict := (list (string * json)).

(** Exceptions, by class.  [JWTError] stands for the class and its
    subclasses ([ExpiredSignatureError], [JWTClaimsError]); its payload is
    what [str(error)] renders. *)
Inductive jwt_error : Type :=
  | MissingKid                      (* "Token missing 'kid' in header" *)
  | KeyNotFound (kid : json)        (* "Unable to find key '{kid}' in JWKS" *)
  | JoseMessage (msg : string).     (* raised inside python-jose *)

Inductive http_detail : Type :=
  | TokenValidationFailed (e : jwt_error)
  | AuthenticationRequired
  | AccessDenied (required_roles : list string).

Inductive exn : Type :=
  | TypeError
  | KeyError (key : string)
  | AttributeError
  | TransportError                  (* client.get raised *)
  | HTTPStatusError (status : Z)    (* raise_for_status raised *)
  | JSONDecodeError                 (* response.json() raised *)
  | JWKError (msg : string)
  | JWTError (e : jwt_error)
  | HTTPException (status_code : Z) (detail : http_detail).

Inductive result (A : Type) : Type :=
  | Ok (a : A)
  | Err (e : exn).
Arguments Ok {A} a.
Arguments Err {A} e.

Definition result_bind {A B} (r : result A) (k : A -> result B) : result B :=
  match r with
  | Ok a => k a
  | Err e => Err e
  end.

(** Reading a dict: [dict_find] is the lookup, [dict_get] is
    [d.get(k, default)]. *)
Fixpoint dict_find (d : dict) (k : string) : option json :=
  match d with
  | [] => None
  | (k', v) :: rest => if String.eqb k' k then Some v else dict_find rest k
  end.

Definition dict_get (d : dict) (k : string) (default : json) : json :=
  match dict_find d k with
  | Some v => v
  | None => default
  end.

(** [v[k]] for a string [k]: a dict is looked up, anything else cannot be
    indexed by a string. *)
Definition subscript (v : json) (k : string) : result json :=
  match v with
  | JObj d => match dict_find d k with
              | Some x => Ok x
              | None => Err (KeyError k)
              end
  | _ => Err TypeError
  end.

(** [v.get(k, default)]: only a dict has the method. *)
Definition py_get (v : json) (k : string) (default : json) : result json :=
  match v with
  | JObj d => Ok (dict_get d k default)
  | _ => Err AttributeError
  end.

(** Truth value of [v] ([if not v]). *)
Definition truthy (v : json) : bool :=
  match v with
  | JNull => false
  | JBool b => b
  | JNum n => negb (n =? 0)
  | JStr s => negb (String.eqb s "")
  | JArr l => match l with [] => false | _ => true end
  | JObj d => match d with [] => false | _ => true end
  end.

Fixpoint chars (s : string) : list json :=
  match s with
  | EmptyString => []
  | String c rest => JStr (String c EmptyString) :: chars rest
  end.

(** [for x in v]: a list yields its items, a dict its keys, a string its
    characters; nothing else is iterable. *)
Definition py_iter (v : json) : result (list json) :=
  match v with
  | JArr l => Ok l
  | JObj d => Ok (map (fun kv => JStr (fst kv)) d)
  | JStr s => Ok (chars s)
  | _ => Err TypeError
  end.

(** Dictionary keys: the hashable JSON values up to Python equality
    ([True == 1], [False == 0]). *)
Inductive pykey : Type :=
  | KNone
  | KNum (n : Z)
  | KStr (s : string).

#[global] Instance pykey_eq_dec : EqDecision pykey.
Proof. solve_decision. Defined.

Definition pykey_code (k : pykey) : unit + (Z + string) :=
  match k with
  | KNone => inl tt
  | KNum n => inr (inl n)
  | KStr s => inr (inr s)
  end.

Definition pykey_uncode (c : unit + (Z + string)) : pykey :=
  match c with
  | inl _ => KNone
  | inr (inl n) => KNum n
  | inr (inr s) => KStr s
  end.

#[global] Instance pykey_countable : Countable pykey.
Proof.
  apply (inj_countable' pykey_code pykey_uncode).
  intros k. destruct k; reflexivity.
Defined.

(** Hashing [v] to use it as a key: lists and dicts are unhashable. *)
Definition hash_key (v : json) : result pykey :=
  match v with
  | JNull => Ok KNone
  | JBool b => Ok (KNum (if b then 1 else 0))
  | JNum n => Ok (KNum n)
  | JStr s => Ok (KStr s)
  | JArr _ => Err TypeError
  | JObj _ => Err TypeError
  end.

Fixpoint substringb (needle hay : string) : bool :=
  String.prefix needle hay
  || match hay with
     | EmptyString => false
     | String _ rest => substringb needle rest
     end.

Definition is_str (role : string) (v : json) : bool :=
  match v with
  | JStr s => String.eqb role s
  | _ => false
  end.

(** [role in container] for a string [role]. *)
Definition py_in (role : string) (container : json) : result bool :=
  match container with
  | JArr l => Ok (existsb (is_str role) l)
  | JObj d => Ok (existsb (fun kv => String.eqb role (fst kv)) d)
  | JStr s => Ok (substringb role s)
  | _ => Err TypeError
  end.

(** ** The network *)

Inductive http_reply : Type :=
  | NoConnection                   (* client.get raises *)
  | BadStatus (status : Z)         (* raise_for_status raises *)
  | NotJson                        (* response.json() raises *)
  | Body (doc : json).

(** What the three fetch lines end with. *)
Definition reply_result (r : http_reply) : result json :=
  match r with
  | NoConnection => Err TransportError
  | BadStatus c => Err (HTTPStatusError c)
  | NotJson => Err JSONDecodeError
  | Body doc => Ok doc
  end.

(** Outgoing calls, in order. *)
Inductive event : Type :=
  | EvGet (url : json)
  | EvDecode (algorithms : list string).

Definition is_get (ev : event) : bool :=
  match ev with
  | EvGet _ => true
  | EvDecode _ => false
  end.

Definition fetches (tr : list event) : nat := length (filter is_get tr).

(** The allow-lists handed to [jwt.decode], in call order. *)
Fixpoint algorithms_used (tr : list event) : list (list string) :=
  match tr with
  | [] => []
  | EvGet _ :: rest => algorithms_used rest
  | EvDecode algs :: rest => algs :: algorithms_used rest
  end.

(** ** python-jose *)

Class Jose : Type := {
  Key : Type;
  jwk_construct : json -> result Key;
  get_unverified_header : string -> result dict;
  jwt_decode : string -> Key -> list string -> string -> json -> result dict
}.

(** ** The instance and its monad *)

Section Middleware.
Context `{Jose}.

(** The attributes of [self] that the methods read or assign. *)
Record middleware : Type := {
  keycloak_url : string;
  realm : string;
  client_id : string;
  jwks_cache_ttl : Z;
  oidc_config : json;                 (* None is JNull *)
  jwks_keys : gmap pykey Key;
  jwks_last_fetch : Z
}.

(** [__init__], with the three strings already resolved. *)
Definition new_middleware (url rlm client : string) (ttl : Z) : middleware :=
  {| keycloak_url := url; realm := rlm; client_id := client;
     jwks_cache_ttl := ttl; oidc_config := JNull;
     jwks_keys := ∅; jwks_last_fetch := 0 |}.

Definition set_oidc_config (doc : json) (self : middleware) : middleware :=
  {| keycloak_url := keycloak_url self; realm := realm self;
     client_id := client_id self; jwks_cache_ttl := jwks_cache_ttl self;
     oidc_config := doc;
     jwks_keys := jwks_keys self; jwks_last_fetch := jwks_last_fetch self |}.

Definition set_jwks_keys (ks : gmap pykey Key) (self : middleware) : middleware :=
  {| keycloak_url := keycloak_url self; realm := realm self;
     client_id := client_id self; jwks_cache_ttl := jwks_cache_ttl self;
     oidc_config := oidc_config self;
     jwks_keys := ks; jwks_last_fetch := jwks_last_fetch self |}.

Definition set_jwks_last_fetch (t : Z) (self : middleware) : middleware :=
  {| keycloak_url := keycloak_url self; realm := realm self;
     client_id := client_id self; jwks_cache_ttl := jwks_cache_ttl self;
     oidc_config := oidc_config self;
     jwks_keys := jwks_keys self; jwks_last_fetch := t |}.

(** What running a method gives: how it ended, the instance afterwards,
    the calls it made. *)
Record run (A : Type) : Type := Run {
  ended : result A;
  after : middleware;
  calls : list event
}.
Arguments Run {A} ended after calls.
Arguments ended {A} r.
Arguments after {A} r.
Arguments calls {A} r.

Definition M (A : Type) : Type := middleware -> run A.

Definition ret {A} (a : A) : M A := fun self => Run (Ok a) self [].
Definition raise {A} (e : exn) : M A := fun self => Run (Err e) self [].

Definition bind {A B} (m : M A) (k : A -> M B) : M B := fun self =>
  let r := m self in
  match ended r with
  | Ok a => let r' := k a (after r) in
            Run (ended r') (after r') (calls r ++ calls r')
  | Err e => Run (Err e) (after r) (calls r)
  end.

(** [try: body / except Exception as error: handler error]. *)
Definition try_except {A} (body : M A) (handler : exn -> M A) : M A := fun self =>
  let r := body self in
  match ended r with
  | Ok a => r
  | Err e => let r' := handler e (after r) in
             Run (ended r') (after r') (calls r ++ calls r')
  end.

Definition lift {A} (r : result A) : M A := fun self => Run r self [].
Definition get_self : M middleware := fun self => Run (Ok self) self [].
Definition assign (f : middleware -> middleware) : M unit :=
  fun self => Run (Ok tt) (f self) [].
Definition call (ev : event) : M unit := fun self => Run (Ok tt) self [ev].

#[global] Instance M_ret : MRet M := @ret.
#[global] Instance M_bind : MBind M := fun A B k m => bind m k.

Fixpoint for_each {A} (l : list A) (body : A -> M unit) : M unit :=
  match l with
  | [] => ret tt
  | x :: rest => body x;; for_each rest body
  end.

(** [client.get(url)], [raise_for_status()], [response.json()]. *)
Definition http_get_json (net : json -> http_reply) (url : json) : M json :=
  call (EvGet url);;
  lift (reply_result (net url)).

(** ** The methods *)

(** [init] (lines 39-52). *)
Definition init (net : json -> http_reply) : M unit :=
  try_except
    (self ← get_self;
     let config_url :=
       keycloak_url self +:+ "/realms/" +:+ realm self
       +:+ "/.well-known/openid-configuration" in
     doc ← http_get_json net (JStr config_url);
     assign (set_oidc_config doc))
    (fun error => raise error).

(** Lines 68-69 up to the store: the kid is read, the key built, and the
    kid hashed by the assignment. *)
Definition parse_entry (key_data : json) : result (pykey * Key) :=
  result_bind (subscript key_data "kid") (fun kid =>
  result_bind (jwk_construct key_data) (fun key =>
  result_bind (hash_key kid) (fun k => Ok (k, key)))).

(** One turn of the loop at lines 67-69. *)
Definition store_key (key_data : json) : M unit :=
  entry ← lift (parse_entry key_data);
  assign (fun self =>
            set_jwks_keys (<[fst entry := snd entry]> (jwks_keys self)) self).

(** The body of the [try] at lines 60-72. *)
Definition refresh (current_time : Z) (net : json -> http_reply) : M unit :=
  self ← get_self;
  uri ← lift (subscript (oidc_config self) "jwks_uri");
  jwks_data ← http_get_json net uri;
  assign (set_jwks_keys ∅);;
  keys ← lift (subscript jwks_data "keys");
  entries ← lift (py_iter keys);
  for_each entries store_key;;
  assign (set_jwks_last_fetch current_time).

Definition is_empty (ks : gmap pykey Key) : bool := bool_decide (ks = ∅).

(** [get_jwks_keys] (lines 54-79). *)
Definition get_jwks_keys (current_time : Z) (net : json -> http_reply)
  : M (gmap pykey Key) :=
  self ← get_self;
  (if current_time - jwks_last_fetch self >? jwks_cache_ttl self then
     try_except (refresh current_time net)
       (fun error =>
          self' ← get_self;
          if is_empty (jwks_keys self') then raise error else ret tt)
   else ret tt);;
  self'' ← get_self;
  ret (jwks_keys self'').

(** The key lookup of [validate_token] (lines 92-97). *)
Definition getSigningKey (current_time : Z) (net : json -> http_reply)
  (kid : json) : M Key :=
  cached ← get_jwks_keys current_time net;
  k ← lift (hash_key kid);
  match cached !! k with
  | None => raise (JWTError (KeyNotFound kid))
  | Some key => ret key
  end.

(** The [try] block of [validate_token] (lines 84-108). *)
Definition validate_token_try (current_time : Z) (net : json -> http_reply)
  (token : string) : M dict :=
  unverified_header ← lift (get_unverified_header token);
  let kid := dict_get unverified_header "kid" JNull in
  if negb (truthy kid) then raise (JWTError MissingKid)
  else
    key ← getSigningKey current_time net kid;
    self ← get_self;
    issuer ← lift (subscript (oidc_config self) "issuer");
    call (EvDecode ["RS256"]);;
    lift (jwt_decode token key ["RS256"] (client_id self) issuer).

(** [validate_token] (lines 81-114): the block above, with a [JWTError]
    turned into a 401. *)
Definition validate_token (current_time : Z) (net : json -> http_reply)
  (token : string) : M dict :=
  try_except (validate_token_try current_time net token)
    (fun error =>
       match error with
       | JWTError e => raise (HTTPException 401 (TokenValidationFailed e))
       | _ => raise error
       end).

(** [any(role in user_roles for role in required_roles)]. *)
Fixpoint any_role_in (user_roles : json) (required_roles : list string)
  : result bool :=
  match required_roles with
  | [] => Ok false
  | role :: rest =>
      result_bind (py_in role user_roles) (fun found =>
        if found then Ok true else any_role_in user_roles rest)
  end.

(** [payload.get('realm_access', {}).get('roles', [])]. *)
Definition realm_roles (payload : dict) : result json :=
  py_get (dict_get payload "realm_access" (JObj [])) "roles" (JArr []).

(** [has_role] (lines 116-122). *)
Definition has_role (user_payload : dict) (required_roles : list string)
  : result bool :=
  match required_roles with
  | [] => Ok true
  | _ => result_bind (realm_roles user_payload) (fun user_roles =>
           any_role_in user_roles required_roles)
  end.

(** The dict returned at lines 135-143 and 160-168. *)
Record user : Type := {
  user_id : json;                     (* 'id' *)
  username : json;
  email : json;
  name : json;
  roles : json;
  client_roles : json;
  token_payload : dict
}.

Definition user_of_payload (payload : dict) : result user :=
  result_bind (realm_roles payload) (fun rs =>
    Ok {| user_id := dict_get payload "sub" JNull;
          username := dict_get payload "preferred_username" JNull;
          email := dict_get payload "email" JNull;
          name := dict_get payload "name" JNull;
          roles := rs;
          client_roles := dict_get payload "resource_access" (JObj []);
          token_payload := payload |}).

Record HTTPAuthorizationCredentials : Type := {
  scheme : string;
  credentials : string
}.

(** [get_current_user] (lines 124-145). *)
Definition get_current_user (current_time : Z) (net : json -> http_reply)
  (creds : option HTTPAuthorizationCredentials) : M (option user) :=
  match creds with
  | None => ret None
  | Some c =>
      try_except
        (payload ← validate_token current_time net (credentials c);
         u ← lift (user_of_payload payload);
         ret (Some u))
        (fun error =>
           match error with
           | HTTPException _ _ => ret None
           | _ => raise error
           end)
  end.

(** [_require_auth] (lines 149-168). *)
Definition require_auth (current_time : Z) (net : json -> http_reply)
  (creds : option HTTPAuthorizationCredentials) : M user :=
  match creds with
  | None => raise (HTTPException 401 AuthenticationRequired)
  | Some c =>
      payload ← validate_token current_time net (credentials c);
      lift (user_of_payload payload)
  end.

(** [_require_roles] (lines 174-183). *)
Definition require_roles (required_roles : list string) (current_time : Z)
  (net : json -> http_reply) (creds : option HTTPAuthorizationCredentials)
  : M user :=
  current_user ← require_auth current_time net creds;
  allowed ← lift (has_role (token_payload current_user) required_roles);
  if (allowed : bool) then ret current_user
  else raise (HTTPException 403 (AccessDenied required_roles)).

(** [optional_auth] (lines 187-189) hands out [get_current_user]. *)
Definition optional_auth := get_current_user.

(** [__init__] (lines 20-37), up to the task it schedules: an argument
    that is None or empty falls back on the environment, and that on the
    built-in default. *)
Definition getenv (env : string -> option string) (var default : string)
  : string :=
  match env var with
  | Some v => v
  | None => default
  end.

Definition or_getenv (arg : option string) (env : string -> option string)
  (var default : string) : string :=
  match arg with
  | Some v => if String.eqb v "" then getenv env var default else v
  | None => getenv env var default
  end.

Definition __init__ (env : string -> option string)
  (url rlm client : option string) (ttl : Z) : middleware :=
  new_middleware
    (or_getenv url env "KEYCLOAK_URL" "http://localhost:8080")
    (or_getenv rlm env "PROJECT_REALM" "project-realm")
    (or_getenv client env "PROJECT_WEB_CLIENT_ID" "project-web")
    ttl.

(** The handlers of [create_example_app] (lines 205-235), each behind its
    dependency. *)
Inductive body : Type :=
  | PublicBody                                   (* line 207 *)
  | ProtectedBody (current_user : user)          (* lines 213-216 *)
  | AdminBody (current_user : user)              (* lines 222-225 *)
  | OptionalBody (authenticated : bool) (current_user : option user).

Definition public_endpoint : M body := ret PublicBody.

Definition protected_endpoint (current_time : Z) (net : json -> http_reply)
  (creds : option HTTPAuthorizationCredentials) : M body :=
  current_user ← require_auth current_time net creds;
  ret (ProtectedBody current_user).

Definition admin_endpoint (current_time : Z) (net : json -> http_reply)
  (creds : option HTTPAuthorizationCredentials) : M body :=
  current_user ← require_roles ["admin"] current_time net creds;
  ret (AdminBody current_user).

Definition optional_endpoint (current_time : Z) (net : json -> http_reply)
  (creds : option HTTPAuthorizationCredentials) : M body :=
  current_user ← optional_auth current_time net creds;
  ret (OptionalBody (bool_decide (current_user <> None)) current_user).

(** The loop at lines 67-69 read as data: the entries parsed before the
    first one that raises, and what that one raised. *)
Fixpoint parse_prefix (entries : list json)
  : list (pykey * Key) * option exn :=
  match entries with
  | [] => ([], None)
  | key_data :: rest =>
      match parse_entry key_data with
      | Err e => ([], Some e)
      | Ok kv => let '(parsed, stop) := parse_prefix rest in
                 (kv :: parsed, stop)
      end
  end.

(** Storing parsed entries in order: a later kid overwrites an earlier
    one. *)
Fixpoint store_all (parsed : list (pykey * Key)) (ks : gmap pykey Key)
  : gmap pykey Key :=
  match parsed with
  | [] => ks
  | kv :: rest => store_all rest (<[fst kv := snd kv]> ks)
  end.

(** The configuration: what [__init__] and [init] set up. *)
Definition configuration (self : middleware)
  : string * string * string * Z * json :=
  (keycloak_url self, realm self, client_id self, jwks_cache_ttl self,
   oidc_config self).

(** The cache belongs to the discovery document: keys are only ever
    there together with a jwks_uri. *)
Definition cache_has_source (self : middleware) : Prop :=
  jwks_keys self <> ∅ ->
  exists uri, subscript (oidc_config self) "jwks_uri" = Ok uri.

End Middleware.

Arguments middleware {_}.
Arguments run {_} A.
Arguments Run {_ _} ended after calls.
Arguments ended {_ _} r.
Arguments after {_ _} r.
Arguments calls {_ _} r.
Arguments M {_} A.

(** ** A small python-jose, to run the methods on

    A key is the JWKS entry it was built from, and [jwk.construct] wants
    an "alg" in it, as the library does.  Tokens are named by what they
    carry: "garbage" has no readable header, "nokid" a header without
    kid, "listkid" a list as kid, "forged" a bad signature, "odd" a
    payload whose realm_access is null; any other token is signed by
    "k1" for alice, who has the role "user". *)
Module Toy.

Definition construct (key_data : json) : result json :=
  match key_data with
  | JObj d => match dict_find d "alg" with
              | Some _ => Ok key_data
              | None => Err (JWKError "Unable to find an algorithm for key")
              end
  | _ => Err (JWKError "Unable to find an algorithm for key")
  end.

Definition header (token : string) : result dict :=
  if String.eqb token "garbage"
  then Err (JWTError (JoseMessage "Error decoding token headers."))
  else if String.eqb token "nokid" then Ok [("alg", JStr "RS256")]
  else if String.eqb token "listkid"
  then Ok [("alg", JStr "RS256"); ("kid", JArr [JStr "k1"])]
  else Ok [("alg", JStr "RS256"); ("kid", JStr "k1")].

Definition decode (token : string) (key : json) (algorithms : list string)
  (audience : string) (issuer : json) : result dict :=
  if String.eqb token "forged"
  then Err (JWTError (JoseMessage "Signature verification failed."))
  else if String.eqb token "odd"
  then Ok [("sub", JStr "bob"); ("realm_access", JNull)]
  else Ok [("sub", JStr "alice");
           ("realm_access", JObj [("roles", JArr [JStr "user"])])].

Definition jose : Jose :=
  {| Key := json; jwk_construct := construct;
     get_unverified_header := header; jwt_decode := decode |}.

Definition entry (kid : string) : json :=
  JObj [("kid", JStr kid); ("kty", JStr "RSA"); ("alg", JStr "RS256")].

Definition jwks (entries : list json) : json := JObj [("keys", JArr entries)].

Definition discovery : json :=
  JObj [("issuer", JStr "https://idp/realms/r");
        ("jwks_uri", JStr "https://idp/realms/r/jwks")].

(** Just constructed: nothing fetched yet. *)
Definition fresh_instance : middleware (H:=jose) :=
  new_middleware "https://idp" "r" "web-client" 300.

(** After [init]: the discovery document is there, no key yet. *)
Definition ready : middleware (H:=jose) :=
  set_oidc_config discovery fresh_instance.

(** One key "k1", fetched at time 1000. *)
Definition warm : middleware (H:=jose) :=
  set_jwks_last_fetch 1000
    (set_jwks_keys {[ KStr "k1" := entry "k1" ]} ready).

Definition serves (doc : json) : json -> http_reply := fun _ => Body doc.
Definition down : json -> http_reply := fun _ => NoConnection.

Definition bearer (token : string) : option HTTPAuthorizationCredentials :=
  Some {| scheme := "Bearer"; credentials := token |}.

End Toy.

(** More inputs to run the methods on: an instance whose discovery
    document has no issuer, and a library in which the token "root" is
    signed for an administrator. *)
Module Cases.

Definition no_issuer : middleware (H:=Toy.jose) :=
  set_oidc_config (JObj [("jwks_uri", JStr "https://idp/realms/r/jwks")])
    Toy.warm.

Definition decode (token : string) (key : json) (algorithms : list string)
  (audience : string) (issuer : json) : result dict :=
  if String.eqb token "root"
  then Ok [("sub", JStr "root");
           ("realm_access", JObj [("roles", JArr [JStr "user"; JStr "admin"])])]
  else Toy.decode token key algorithms audience issuer.

Definition jose : Jose :=
  {| Key := json; jwk_construct := Toy.construct;
     get_unverified_header := Toy.header; jwt_decode := decode |}.

Definition warm : middleware (H:=jose) :=
  set_jwks_last_fetch 1000
    (set_jwks_keys {[ KStr "k1" := Toy.entry "k1" ]}
       (set_oidc_config Toy.discovery
          (new_middleware "https://idp" "r" "web-client" 300))).

Definition root : user :=
  {| user_id := JStr "root"; username := JNull; email := JNull; name := JNull;
     roles := JArr [JStr "user"; JStr "admin"]; client_roles := JObj [];
     token_payload :=
       [("sub", JStr "root");
        ("realm_access", JObj [("roles", JArr [JStr "user"; JStr "admin"])])] |}.

Definition alice : user :=
  {| user_id := JStr "alice"; username := JNull; email := JNull; name := JNull;
     roles := JArr [JStr "user"]; client_roles := JObj [];
     token_payload :=
       [("sub", JStr "alice");
        ("realm_access", JObj [("roles", JArr [JStr "user"])])] |}.

End Cases.

(** * Properties *)

Ltac run_m :=
  unfold mbind, M_bind, bind, mret, M_ret, ret, raise, lift, get_self,
         assign, call, try_except in *;
  cbn [ended after calls] in *.

Section CacheFacts.
Context `{Jose}.
Implicit Types (st : middleware) (net : json -> http_reply).

Definition stale st (now : Z) : Prop :=
  now - jwks_last_fetch st > jwks_cache_ttl st.

Lemma stale_test st now :
  (now - jwks_last_fetch st >? jwks_cache_ttl st) = true <-> stale st now.
Proof. unfold stale. rewrite Z.gtb_ltb, Z.ltb_lt. lia. Qed.

Lemma fresh_test st now :
  (now - jwks_last_fetch st >? jwks_cache_ttl st) = false <-> ~ stale st now.
Proof. rewrite <- stale_test. destruct (_ >? _); split; congruence. Qed.

(** One loop turn either stores the parsed entry or raises, and makes no
    outgoing call. *)
Lemma store_key_run key_data st :
  store_key key_data st =
  match parse_entry key_data with
  | Ok e => Run (Ok tt) (set_jwks_keys (<[fst e := snd e]> (jwks_keys st)) st) []
  | Err e => Run (Err e) st []
  end.
Proof. unfold store_key. run_m. destruct (parse_entry key_data); reflexivity. Qed.

(** The fields a loop of [store_key] leaves alone. *)
Lemma for_each_store_frame entries st :
  let r := for_each entries store_key st in
  calls r = []
  /\ oidc_config (after r) = oidc_config st
  /\ jwks_cache_ttl (after r) = jwks_cache_ttl st
  /\ jwks_last_fetch (after r) = jwks_last_fetch st
  /\ client_id (after r) = client_id st.
Proof.
  revert st. induction entries as [|x rest IH]; intros st; cbn.
  - run_m. auto.
  - run_m. rewrite store_key_run.
    destruct (parse_entry x) as [e|e]; cbn; [|auto].
    specialize (IH (set_jwks_keys (<[fst e := snd e]> (jwks_keys st)) st)).
    cbn in IH. destruct IH as (-> & -> & -> & -> & ->). auto.
Qed.

(** [refresh] issues its GET exactly when the discovery document yields a
    jwks_uri, and nothing else. *)
Lemma refresh_calls now net st :
  calls (refresh now net st) =
  match subscript (oidc_config st) "jwks_uri" with
  | Ok uri => [EvGet uri]
  | Err _ => []
  end.
Proof.
  unfold refresh, http_get_json. run_m.
  destruct (subscript (oidc_config st) "jwks_uri") as [uri|e]; cbn; [|done].
  destruct (reply_result (net uri)) as [doc|e]; cbn; [|done].
  destruct (subscript doc "keys") as [ks|e]; cbn; [|done].
  destruct (py_iter ks) as [entries|e]; cbn; [|done].
  pose proof (for_each_store_frame entries (set_jwks_keys ∅ st)) as (Hc & _).
  destruct (ended (for_each entries store_key _)); cbn; rewrite Hc; done.
Qed.

Lemma refresh_frame now net st :
  oidc_config (after (refresh now net st)) = oidc_config st
  /\ jwks_cache_ttl (after (refresh now net st)) = jwks_cache_ttl st
  /\ client_id (after (refresh now net st)) = client_id st.
Proof.
  unfold refresh, http_get_json. run_m.
  destruct (subscript (oidc_config st) "jwks_uri") as [uri|e]; cbn; [|done].
  destruct (reply_result (net uri)) as [doc|e]; cbn; [|done].
  destruct (subscript doc "keys") as [ks|e]; cbn; [|done].
  destruct (py_iter ks) as [entries|e]; cbn; [|done].
  pose proof (for_each_store_frame entries (set_jwks_keys ∅ st))
    as (_ & Ho & Ht & _ & Hc).
  destruct (ended (for_each entries store_key _)); cbn; auto.
Qed.

(** [jwks_last_fetch] moves to [now] exactly on success. *)
Lemma refresh_last_fetch now net st :
  jwks_last_fetch (after (refresh now net st)) =
  match ended (refresh now net st) with
  | Ok _ => now
  | Err _ => jwks_last_fetch st
  end.
Proof.
  unfold refresh, http_get_json. run_m.
  destruct (subscript (oidc_config st) "jwks_uri") as [uri|e]; cbn; [|done].
  destruct (reply_result (net uri)) as [doc|e]; cbn; [|done].
  destruct (subscript doc "keys") as [ks|e]; cbn; [|done].
  destruct (py_iter ks) as [entries|e]; cbn; [|done].
  pose proof (for_each_store_frame entries (set_jwks_keys ∅ st))
    as (_ & _ & _ & Hl & _).
  destruct (ended (for_each entries store_key _)); cbn; auto.
Qed.

(** A fetch that fails leaves the instance as it was. *)
Lemma refresh_fetch_failure now net st uri e :
  subscript (oidc_config st) "jwks_uri" = Ok uri ->
  reply_result (net uri) = Err e ->
  refresh now net st = Run (Err e) st [EvGet uri].
Proof.
  intros Hu Hr. unfold refresh, http_get_json. run_m.
  rewrite Hu. cbn. rewrite Hr. reflexivity.
Qed.

(** Within the TTL the cache is returned untouched. *)
Lemma get_jwks_keys_fresh now net st :
  ~ stale st now ->
  get_jwks_keys now net st = Run (Ok (jwks_keys st)) st [].
Proof.
  intros Hf. apply fresh_test in Hf.
  unfold get_jwks_keys. run_m. rewrite Hf. reflexivity.
Qed.

(** Past the TTL, [get_jwks_keys] is the refresh followed by the handler's
    choice. *)
Lemma get_jwks_keys_stale now net st :
  stale st now ->
  get_jwks_keys now net st =
  let r := refresh now net st in
  match ended r with
  | Ok _ => Run (Ok (jwks_keys (after r))) (after r) (calls r)
  | Err e => if is_empty (jwks_keys (after r))
             then Run (Err e) (after r) (calls r)
             else Run (Ok (jwks_keys (after r))) (after r) (calls r)
  end.
Proof.
  intros Hs. apply stale_test in Hs.
  unfold get_jwks_keys. run_m. rewrite Hs. cbn.
  destruct (refresh now net st) as [[[]|e] st' tr]; cbn.
  - rewrite !app_nil_r. reflexivity.
  - destruct (is_empty (jwks_keys st')); cbn; rewrite !app_nil_r; reflexivity.
Qed.

Lemma get_jwks_keys_calls now net st :
  calls (get_jwks_keys now net st) =
  if now - jwks_last_fetch st >? jwks_cache_ttl st
  then calls (refresh now net st) else [].
Proof.
  destruct (_ >? _) eqn:E.
  - apply stale_test in E. rewrite get_jwks_keys_stale by done. cbn.
    destruct (ended (refresh now net st)); [done|].
    destruct (is_empty _); done.
  - apply fresh_test in E. rewrite get_jwks_keys_fresh by done. done.
Qed.

Lemma get_jwks_keys_frame now net st :
  oidc_config (after (get_jwks_keys now net st)) = oidc_config st
  /\ jwks_cache_ttl (after (get_jwks_keys now net st)) = jwks_cache_ttl st
  /\ client_id (after (get_jwks_keys now net st)) = client_id st.
Proof.
  destruct (now - jwks_last_fetch st >? jwks_cache_ttl st) eqn:E.
  - apply stale_test in E. rewrite get_jwks_keys_stale by done. cbn.
    pose proof (refresh_frame now net st).
    destruct (ended (refresh now net st)); [done|].
    destruct (is_empty _); done.
  - apply fresh_test in E. rewrite get_jwks_keys_fresh by done. done.
Qed.

(** The lookup adds no call and no assignment to [get_jwks_keys]. *)
Lemma getSigningKey_run now net kid st :
  let g := get_jwks_keys now net st in
  after (getSigningKey now net kid st) = after g
  /\ calls (getSigningKey now net kid st) = calls g
  /\ ended (getSigningKey now net kid st) =
     match ended g with
     | Err e => Err e
     | Ok cached =>
         match hash_key kid with
         | Err e => Err e
         | Ok k => match cached !! k with
                   | Some key => Ok key
                   | None => Err (JWTError (KeyNotFound kid))
                   end
         end
     end.
Proof.
  unfold getSigningKey. run_m.
  destruct (get_jwks_keys now net st) as [[cached|e] st' tr]; cbn; [|done].
  destruct (hash_key kid) as [k|e]; cbn; [|by rewrite app_nil_r].
  destruct (cached !! k); cbn; by rewrite !app_nil_r.
Qed.

End CacheFacts.

(** ** The key cache: when it fetches *)

Section KeyCache.
Context `{Jose}.
Implicit Types (st : middleware) (net : json -> http_reply).

Lemma run_eta {A} (r : run A) : Run (ended r) (after r) (calls r) = r.
Proof. destruct r; reflexivity. Qed.

Lemma refresh_ok_uri now net st :
  ended (refresh now net st) = Ok tt ->
  exists uri, subscript (oidc_config st) "jwks_uri" = Ok uri.
Proof.
  unfold refresh. run_m.
  destruct (subscript (oidc_config st) "jwks_uri") as [uri|e]; cbn; [eauto|done].
Qed.

Lemma getSigningKey_fetches now net kid st :
  fetches (calls (getSigningKey now net kid st)) =
  if now - jwks_last_fetch st >? jwks_cache_ttl st
  then match subscript (oidc_config st) "jwks_uri" with
       | Ok _ => 1%nat
       | Err _ => 0%nat
       end
  else 0%nat.
Proof.
  destruct (getSigningKey_run now net kid st) as (_ & -> & _).
  rewrite get_jwks_keys_calls. destruct (_ >? _); [|done].
  rewrite refresh_calls. destruct (subscript _ _); done.
Qed.

(** C1, as amended: within the TTL [getSigningKey] never fetches, whether
    or not the kid is cached.  A cached kid gives its key; an absent one
    fails at once with the unknown-key [JWTError], with the instance
    untouched and no GET issued.  Conversely, with a jwks_uri in the
    discovery document, a key that comes back without any GET was cached
    and the cache was within its TTL. *)
Theorem fresh_cache_is_never_refreshed st now net kid :
  (~ stale st now ->
   getSigningKey now net kid st =
   Run (match hash_key kid with
        | Err e => Err e
        | Ok k => match jwks_keys st !! k with
                  | Some key => Ok key
                  | None => Err (JWTError (KeyNotFound kid))
                  end
        end) st [])
  /\ (forall uri key,
        subscript (oidc_config st) "jwks_uri" = Ok uri ->
        ended (getSigningKey now net kid st) = Ok key ->
        fetches (calls (getSigningKey now net kid st)) = 0%nat ->
        ~ stale st now
        /\ exists k, hash_key kid = Ok k /\ jwks_keys st !! k = Some key).
Proof.
  split.
  - intros Hf. rewrite <- (run_eta (getSigningKey now net kid st)).
    destruct (getSigningKey_run now net kid st) as (-> & -> & ->).
    rewrite get_jwks_keys_fresh by done. reflexivity.
  - intros uri key Hu Hk Hn.
    rewrite getSigningKey_fetches, Hu in Hn.
    destruct (now - jwks_last_fetch st >? jwks_cache_ttl st) eqn:E; [done|].
    apply fresh_test in E. split; [done|].
    destruct (getSigningKey_run now net kid st) as (_ & _ & He).
    rewrite He, get_jwks_keys_fresh in Hk by done. cbn in Hk.
    destruct (hash_key kid) as [k|]; [|done]. exists k. split; [done|].
    destruct (jwks_keys st !! k); congruence.
Qed.

(** C4: with an empty cache past its TTL, a JWKS fetch that fails
    (no connection, error status, or a body that is not JSON) makes
    [getSigningKey] raise that very error for any kid; the instance is
    unchanged and the one GET was issued. *)
Theorem empty_cache_fetch_failure_propagates st now net kid uri e :
  jwks_keys st = ∅ ->
  stale st now ->
  subscript (oidc_config st) "jwks_uri" = Ok uri ->
  reply_result (net uri) = Err e ->
  getSigningKey now net kid st = Run (Err e) st [EvGet uri].
Proof.
  intros Hk Hs Hu Hr. rewrite <- (run_eta (getSigningKey now net kid st)).
  destruct (getSigningKey_run now net kid st) as (-> & -> & ->).
  rewrite get_jwks_keys_stale by done.
  rewrite (refresh_fetch_failure now net st uri e) by done. cbn.
  rewrite Hk. reflexivity.
Qed.

(** Fail-soft at the fetch: when the GET itself fails and the kid is
    cached, the stale key is served and the instance is unchanged. *)
Lemma cached_key_survives_fetch_failure st now net kid k key uri e :
  stale st now ->
  subscript (oidc_config st) "jwks_uri" = Ok uri ->
  reply_result (net uri) = Err e ->
  hash_key kid = Ok k ->
  jwks_keys st !! k = Some key ->
  getSigningKey now net kid st = Run (Ok key) st [EvGet uri].
Proof.
  intros Hs Hu Hr Hh Hk. rewrite <- (run_eta (getSigningKey now net kid st)).
  destruct (getSigningKey_run now net kid st) as (-> & -> & ->).
  rewrite get_jwks_keys_stale by done.
  rewrite (refresh_fetch_failure now net st uri e) by done. cbn.
  assert (is_empty (jwks_keys st) = false) as ->.
  { unfold is_empty. apply bool_decide_eq_false. intros E.
    rewrite E, lookup_empty in Hk. done. }
  cbn. rewrite Hh, Hk. reflexivity.
Qed.

(** C7: a call fetches at most once, and only past the TTL.  From a stale
    cache whose refresh at [t1] succeeds, a second call within the TTL of
    [t1] adds no fetch (one GET for the two calls), and a later call past
    the TTL of [t1] issues exactly one more. *)
Theorem fetch_only_past_ttl st :
  (forall now net kid,
     (fetches (calls (getSigningKey now net kid st)) <= 1)%nat
     /\ (fetches (calls (getSigningKey now net kid st)) <> 0%nat ->
         now - jwks_last_fetch st > jwks_cache_ttl st))
  /\ (forall t1 t2 t3 net1 net2 net3 kid1 kid2 kid3,
        stale st t1 ->
        ended (refresh t1 net1 st) = Ok tt ->
        t2 - t1 <= jwks_cache_ttl st ->
        t3 - t1 > jwks_cache_ttl st ->
        let r1 := getSigningKey t1 net1 kid1 st in
        let r2 := getSigningKey t2 net2 kid2 (after r1) in
        let r3 := getSigningKey t3 net3 kid3 (after r2) in
        fetches (calls r1 ++ calls r2) = 1%nat
        /\ fetches (calls r3) = 1%nat).
Proof.
  split.
  - intros now net kid. rewrite getSigningKey_fetches.
    destruct (now - jwks_last_fetch st >? jwks_cache_ttl st) eqn:E.
    + apply stale_test in E. destruct (subscript _ _); split; auto; lia.
    + split; [lia|done].
  - intros t1 t2 t3 net1 net2 net3 kid1 kid2 kid3 Hs Hok Hin Hout r1 r2 r3.
    destruct (refresh_ok_uri _ _ _ Hok) as [uri Hu].
    assert (after r1 = after (refresh t1 net1 st)) as Ha1.
    { unfold r1. destruct (getSigningKey_run t1 net1 kid1 st) as (-> & _).
      rewrite get_jwks_keys_stale by done. cbn. rewrite Hok. done. }
    pose proof (refresh_frame t1 net1 st) as (Hcfg & Httl & _).
    pose proof (refresh_last_fetch t1 net1 st) as Hlast. rewrite Hok in Hlast.
    rewrite <- Ha1 in Hcfg, Httl, Hlast.
    assert (~ stale (after r1) t2) as Hfresh.
    { unfold stale. rewrite Hlast, Httl. lia. }
    assert (after r2 = after r1 /\ calls r2 = []) as [Ha2 Hc2].
    { unfold r2. destruct (getSigningKey_run t2 net2 kid2 (after r1)) as (-> & -> & _).
      rewrite get_jwks_keys_fresh by done. done. }
    split.
    + rewrite Hc2, app_nil_r. unfold r1.
      rewrite getSigningKey_fetches, Hu.
      apply stale_test in Hs. rewrite Hs. done.
    + unfold r3. rewrite getSigningKey_fetches.
      rewrite Ha2, Hcfg, Hu, Hlast, Httl.
      assert ((t3 - t1 >? jwks_cache_ttl st) = true) as ->; [|done].
      rewrite Z.gtb_ltb. apply Z.ltb_lt. lia.
Qed.

End KeyCache.

(** ** Discovery *)

Section Discovery.
Context `{Jose}.
Implicit Types (st : middleware) (net : json -> http_reply).

(** C8, as amended: [init] does not inspect the document it fetches.  It
    stores whatever JSON body the discovery endpoint returns, with or
    without issuer and jwks_uri, and fails exactly when the fetch fails,
    with the fetch error and the instance unchanged. *)
Theorem init_stores_any_document st net :
  let url := JStr (keycloak_url st +:+ "/realms/" +:+ realm st
                   +:+ "/.well-known/openid-configuration") in
  init net st =
  match reply_result (net url) with
  | Ok doc => Run (Ok tt) (set_oidc_config doc st) [EvGet url]
  | Err e => Run (Err e) st [EvGet url]
  end.
Proof.
  unfold init, http_get_json. run_m.
  destruct (reply_result _); reflexivity.
Qed.

(** A stored document without jwks_uri shows up at the first key lookup:
    with nothing cached, [get_jwks_keys] raises before any GET. *)
Lemma missing_jwks_uri_fails_at_lookup st now net e :
  jwks_keys st = ∅ ->
  stale st now ->
  subscript (oidc_config st) "jwks_uri" = Err e ->
  get_jwks_keys now net st = Run (Err e) st [].
Proof.
  intros Hk Hs Hu. rewrite get_jwks_keys_stale by done.
  unfold refresh. run_m. rewrite Hu. cbn. rewrite Hk. reflexivity.
Qed.

End Discovery.

(** ** Roles and the user record *)

Section Roles.

Lemma is_str_true role v : is_str role v = true <-> v = JStr role.
Proof.
  destruct v; cbn; try (split; [discriminate|congruence]).
  rewrite String.eqb_eq. split; congruence.
Qed.

Lemma any_role_in_list rs required :
  any_role_in (JArr rs) required =
  Ok (existsb (fun role => existsb (is_str role) rs) required).
Proof.
  induction required as [|role rest IH]; cbn; [done|].
  destruct (existsb (is_str role) rs); cbn; done.
Qed.

(** C6: [has_role] is true for an empty requirement, whatever the
    payload.  When the payload's realm roles are a list, [has_role]
    returns a boolean, and it is true exactly when the requirement is
    empty or some required role occurs among the realm roles. *)
Theorem has_role_any_of payload required :
  has_role payload [] = Ok true
  /\ (forall rs,
        realm_roles payload = Ok (JArr rs) ->
        exists b,
          has_role payload required = Ok b
          /\ (b = true <->
              required = []
              \/ exists role, In role required /\ In (JStr role) rs)).
Proof.
  split; [reflexivity|]. intros rs Hrs.
  destruct required as [|r0 rest].
  - exists true. split; [reflexivity|]. split; auto.
  - exists (existsb (fun role => existsb (is_str role) rs) (r0 :: rest)).
    split.
    + unfold has_role. rewrite Hrs. cbn [result_bind].
      apply any_role_in_list.
    + rewrite existsb_exists. split.
      * intros (role & Hin & Hex). right. exists role. split; [done|].
        apply existsb_exists in Hex as (v & Hv & Hs).
        apply is_str_true in Hs. by subst.
      * intros [|(role & Hin & Hr)]; [done|]. exists role. split; [done|].
        apply existsb_exists. exists (JStr role). split; [done|].
        by apply is_str_true.
Qed.

(** C9, as amended: when realm_access is absent or an object, building the
    user record succeeds.  An absent sub, preferred_username, email or
    name gives None, an absent realm_access or roles gives the empty
    list, an absent resource_access gives the empty dict; a value that is
    present is passed on as it is, and the payload is kept whole. *)
Theorem user_record_with_object_realm_access payload :
  (dict_find payload "realm_access" = None
   \/ exists d, dict_find payload "realm_access" = Some (JObj d)) ->
  exists u,
    user_of_payload payload = Ok u
    /\ token_payload u = payload
    /\ user_id u = default JNull (dict_find payload "sub")
    /\ username u = default JNull (dict_find payload "preferred_username")
    /\ email u = default JNull (dict_find payload "email")
    /\ name u = default JNull (dict_find payload "name")
    /\ client_roles u = default (JObj []) (dict_find payload "resource_access")
    /\ roles u =
       match dict_find payload "realm_access" with
       | Some (JObj d) => default (JArr []) (dict_find d "roles")
       | _ => JArr []
       end.
Proof.
  intros Hra. unfold user_of_payload, realm_roles, dict_get.
  destruct Hra as [Hra|[d Hra]]; rewrite Hra; cbn;
    (eexists; split; [reflexivity|]); cbn; unfold dict_get;
    repeat split;
    try (destruct (dict_find _ _); reflexivity).
Qed.

Lemma user_of_payload_error payload e :
  user_of_payload payload = Err e -> e = AttributeError.
Proof.
  unfold user_of_payload, realm_roles, py_get.
  destruct (dict_get payload "realm_access" (JObj [])); cbn; congruence.
Qed.

End Roles.

(** ** Token validation *)

Section Validation.
Context `{Jose}.
Implicit Types (st : middleware) (net : json -> http_reply).

Lemma algorithms_used_app tr1 tr2 :
  algorithms_used (tr1 ++ tr2)
  = (algorithms_used tr1 ++ algorithms_used tr2)%list.
Proof.
  induction tr1 as [|[url|algs] tr1 IH]; cbn; [done|done|by rewrite IH].
Qed.

Lemma getSigningKey_no_decode now net kid st :
  algorithms_used (calls (getSigningKey now net kid st)) = [].
Proof.
  destruct (getSigningKey_run now net kid st) as (_ & -> & _).
  rewrite get_jwks_keys_calls. destruct (_ >? _); [|done].
  rewrite refresh_calls. destruct (subscript _ _); done.
Qed.

Lemma getSigningKey_frame now net kid st :
  oidc_config (after (getSigningKey now net kid st)) = oidc_config st
  /\ client_id (after (getSigningKey now net kid st)) = client_id st.
Proof.
  destruct (getSigningKey_run now net kid st) as (-> & _).
  destruct (get_jwks_keys_frame now net st) as (? & _ & ?). done.
Qed.

(** The handler of [validate_token] only renames the error. *)
Lemma validate_token_run now net token st :
  let b := validate_token_try now net token st in
  let v := validate_token now net token st in
  after v = after b
  /\ calls v = calls b
  /\ ended v = match ended b with
               | Err (JWTError je) =>
                   Err (HTTPException 401 (TokenValidationFailed je))
               | other => other
               end.
Proof.
  unfold validate_token, try_except. cbn zeta.
  destruct (validate_token_try now net token st) as [[p|e] st' tr]; cbn; [done|].
  destruct e; cbn; rewrite app_nil_r; done.
Qed.

(** What the [try] block does once the header is read. *)
Lemma validate_token_try_decodes now net token st payload :
  ended (validate_token_try now net token st) = Ok payload ->
  exists key issuer,
    subscript (oidc_config st) "issuer" = Ok issuer
    /\ jwt_decode token key ["RS256"] (client_id st) issuer = Ok payload.
Proof.
  unfold validate_token_try. run_m.
  destruct (get_unverified_header token) as [hdr|e]; cbn; [|done].
  destruct (negb (truthy (dict_get hdr "kid" JNull))); cbn; [done|].
  pose proof (getSigningKey_frame now net (dict_get hdr "kid" JNull) st)
    as [Hcfg Hcid].
  destruct (getSigningKey now net (dict_get hdr "kid" JNull) st)
    as [[key|e] st' tr]; cbn in *; [|done].
  rewrite Hcfg, Hcid.
  destruct (subscript (oidc_config st) "issuer") as [issuer|e]; cbn; [|done].
  intros Hd. exists key, issuer. done.
Qed.

Lemma validate_token_try_algorithms now net token st :
  algorithms_used (calls (validate_token_try now net token st)) = []
  \/ algorithms_used (calls (validate_token_try now net token st)) = [["RS256"]].
Proof.
  unfold validate_token_try. run_m.
  destruct (get_unverified_header token) as [hdr|e]; cbn; [|by left].
  destruct (negb (truthy (dict_get hdr "kid" JNull))); cbn; [by left|].
  pose proof (getSigningKey_no_decode now net (dict_get hdr "kid" JNull) st)
    as Hnd.
  destruct (getSigningKey now net (dict_get hdr "kid" JNull) st)
    as [[key|e] st' tr]; cbn in *; [|by left].
  destruct (subscript (oidc_config st') "issuer") as [issuer|e]; cbn.
  - right.
    destruct (jwt_decode token key ["RS256"] (client_id st') issuer); cbn;
      rewrite !algorithms_used_app, Hnd; done.
  - left. rewrite !algorithms_used_app, Hnd. done.
Qed.

(** C5: every call [validate_token] makes to [jwt.decode] carries the
    allow-list ["RS256"], for every token; a token is accepted only if
    [jwt.decode] under that allow-list accepted it; and the allow-lists of
    any two validations, of any two tokens, are the same. *)
Theorem validate_token_allows_RS256_only st now net token :
  let v := validate_token now net token st in
  Forall (fun algs => algs = ["RS256"]) (algorithms_used (calls v))
  /\ (forall payload,
        ended v = Ok payload ->
        exists key issuer,
          subscript (oidc_config st) "issuer" = Ok issuer
          /\ jwt_decode token key ["RS256"] (client_id st) issuer = Ok payload)
  /\ (forall st2 now2 net2 token2 algs algs2,
        In algs (algorithms_used (calls v)) ->
        In algs2 (algorithms_used (calls (validate_token now2 net2 token2 st2))) ->
        algs = algs2).
Proof.
  assert (forall st0 now0 net0 token0 a,
            In a (algorithms_used (calls (validate_token now0 net0 token0 st0))) ->
            a = ["RS256"]) as Hall.
  { intros st0 now0 net0 token0 a.
    destruct (validate_token_run now0 net0 token0 st0) as (_ & -> & _).
    destruct (validate_token_try_algorithms now0 net0 token0 st0) as [-> | ->];
      cbn; intuition. }
  cbn zeta. split; [|split].
  - apply List.Forall_forall. intros a Ha. by apply Hall in Ha.
  - intros payload Hp.
    destruct (validate_token_run now net token st) as (_ & _ & He).
    rewrite He in Hp.
    apply (validate_token_try_decodes now net token st payload).
    destruct (ended (validate_token_try now net token st)) as [p|e]; [done|].
    destruct e; done.
  - intros st2 now2 net2 token2 algs algs2 H1 H2.
    apply Hall in H1, H2. congruence.
Qed.

(** C10, as amended: [get_current_user] returns None without touching
    anything when no credentials are supplied, and returns None whenever
    [validate_token] raises an [HTTPException] - in particular for every
    [JWTError] of the [try] block.  A validated payload gives the user
    record.  Every other exception, from validation or from building the
    record, is raised to the caller. *)
Theorem get_current_user_outcomes st now net :
  get_current_user now net None st = Run (Ok None) st []
  /\ forall c,
       let b := validate_token_try now net (credentials c) st in
       let v := validate_token now net (credentials c) st in
       let r := get_current_user now net (Some c) st in
       after r = after v
       /\ calls r = calls v
       /\ ended r = match ended v with
                    | Ok payload => match user_of_payload payload with
                                    | Ok u => Ok (Some u)
                                    | Err e => Err e
                                    end
                    | Err (HTTPException _ _) => Ok None
                    | Err e => Err e
                    end
       /\ (forall je, ended b = Err (JWTError je) -> ended r = Ok None).
Proof.
  split; [reflexivity|]. intros c b v r.
  assert (after r = after v /\ calls r = calls v
          /\ ended r = match ended v with
                       | Ok payload => match user_of_payload payload with
                                       | Ok u => Ok (Some u)
                                       | Err e => Err e
                                       end
                       | Err (HTTPException _ _) => Ok None
                       | Err e => Err e
                       end) as (Ha & Hc & He).
  { unfold r, get_current_user. run_m. fold v.
    destruct v as [[payload|e] st' tr]; cbn.
    - destruct (user_of_payload payload) as [u|e] eqn:Hu; cbn.
      + rewrite !app_nil_r. done.
      + apply user_of_payload_error in Hu. subst e. cbn.
        rewrite !app_nil_r. done.
    - destruct e; cbn; rewrite app_nil_r; done. }
  repeat split; [done..|].
  intros je Hje. rewrite He.
  destruct (validate_token_run now net (credentials c) st) as (_ & _ & Hv).
  fold v b in Hv. rewrite Hv, Hje. done.
Qed.

End Validation.

(** ** The methods on concrete inputs *)

Section Runs.
Import Toy.
Local Existing Instance jose.

Lemma not_stale_warm_1100 : ~ stale warm 1100.
Proof. unfold stale. cbn. lia. Defined.

Lemma stale_warm_2000 : stale warm 2000.
Proof. unfold stale. cbn. lia. Defined.

Lemma stale_ready_2000 : stale ready 2000.
Proof. unfold stale. cbn. lia. Defined.

(** C1, the claim as written fails: "k2" is not cached, the cache is
    within its TTL, the server would have served "k2" - and the lookup
    fails without any GET. *)
Lemma fresh_miss_is_not_refreshed :
  let r := getSigningKey 1100 (serves (jwks [entry "k2"])) (JStr "k2") warm in
  ~ stale warm 1100
  /\ jwks_keys warm !! KStr "k2" = None
  /\ ended r = Err (JWTError (KeyNotFound (JStr "k2")))
  /\ fetches (calls r) = 0%nat.
Proof.
  cbn zeta. split; [apply not_stale_warm_1100|].
  split; [|split]; vm_compute; reflexivity.
Qed.

Lemma fresh_cache_is_never_refreshed_witness :
  getSigningKey 1100 down (JStr "k1") warm = Run (Ok (entry "k1")) warm []
  /\ (~ stale warm 1100
      /\ exists k, hash_key (JStr "k1") = Ok k
                   /\ jwks_keys warm !! k = Some (entry "k1")).
Proof.
  destruct (fresh_cache_is_never_refreshed warm 1100 down (JStr "k1"))
    as [Hfresh Hback].
  split.
  - exact (Hfresh not_stale_warm_1100).
  - apply (Hback (JStr "https://idp/realms/r/jwks") (entry "k1"));
      vm_compute; reflexivity.
Defined.

(** C2 on a failing input: one good entry, then an entry without kid.
    The cache ends up holding "new" alone - not the previous {k1}, not a
    whole generation - the error is swallowed and the partial set is what
    readers get, with the fetch time left at 1000. *)
Lemma entry_failure_leaves_partial_keyset :
  let reply := jwks [entry "new"; JObj [("kty", JStr "RSA")]] in
  let r := get_jwks_keys 2000 (serves reply) warm in
  jwks_keys warm = {[ KStr "k1" := entry "k1" ]}
  /\ ended (for_each [entry "new"; JObj [("kty", JStr "RSA")]] store_key warm)
     = Err (KeyError "kid")
  /\ ended r = Ok {[ KStr "new" := entry "new" ]}
  /\ jwks_keys (after r) = {[ KStr "new" := entry "new" ]}
  /\ jwks_keys (after r) !! KStr "k1" = None
  /\ jwks_last_fetch (after r) = 1000.
Proof. cbn zeta. repeat split; vm_compute; reflexivity. Qed.

(** C3 on a failing input: "k1" is cached, the refresh fetches a JWKS
    whose only entry has no kid.  The cache was emptied before the entry
    was read, so the handler finds no keys and raises: the cached "k1" is
    not served, and is gone afterwards. *)
Lemma parse_failure_drops_cached_keys :
  let reply := jwks [JObj [("kty", JStr "RSA")]] in
  let r := getSigningKey 2000 (serves reply) (JStr "k1") warm in
  jwks_keys warm !! KStr "k1" = Some (entry "k1")
  /\ ended (refresh 2000 (serves reply) warm) = Err (KeyError "kid")
  /\ ended r = Err (KeyError "kid")
  /\ jwks_keys (after r) = ∅.
Proof. cbn zeta. repeat split; vm_compute; reflexivity. Qed.

(** The same with a body that has no "keys" at all. *)
Lemma missing_keys_field_drops_cached_keys :
  let r := getSigningKey 2000 (serves (JObj [])) (JStr "k1") warm in
  ended r = Err (KeyError "keys") /\ jwks_keys (after r) = ∅.
Proof. cbn zeta. split; vm_compute; reflexivity. Qed.

Lemma empty_cache_fetch_failure_propagates_witness :
  getSigningKey 2000 down (JStr "k1") ready
  = Run (Err TransportError) ready [EvGet (JStr "https://idp/realms/r/jwks")].
Proof.
  apply (empty_cache_fetch_failure_propagates ready 2000 down (JStr "k1")).
  - reflexivity.
  - apply stale_ready_2000.
  - reflexivity.
  - reflexivity.
Defined.

Lemma validate_token_allows_RS256_only_witness :
  In ["RS256"] (algorithms_used (calls (validate_token 1100 down "alice" warm)))
  /\ In ["RS256"] (algorithms_used (calls (validate_token 1200 down "forged" warm)))
  /\ ["RS256"] = ["RS256"].
Proof.
  assert (In ["RS256"]
            (algorithms_used (calls (validate_token 1100 down "alice" warm))))
    as H1 by (vm_compute; left; reflexivity).
  assert (In ["RS256"]
            (algorithms_used (calls (validate_token 1200 down "forged" warm))))
    as H2 by (vm_compute; left; reflexivity).
  split; [exact H1|]. split; [exact H2|].
  destruct (validate_token_allows_RS256_only warm 1100 down "alice")
    as (_ & _ & Hsame).
  exact (Hsame warm 1200 down "forged" ["RS256"] ["RS256"] H1 H2).
Defined.

Lemma has_role_any_of_witness :
  let payload := [("sub", JStr "alice");
                  ("realm_access", JObj [("roles", JArr [JStr "user"])])] in
  exists b,
    has_role payload ["admin"; "user"] = Ok b
    /\ (b = true <->
        ["admin"; "user"] = []
        \/ exists role, In role ["admin"; "user"] /\ In (JStr role) [JStr "user"]).
Proof.
  cbn zeta.
  destruct (has_role_any_of
              [("sub", JStr "alice");
               ("realm_access", JObj [("roles", JArr [JStr "user"])])]
              ["admin"; "user"]) as [_ Hlist].
  apply (Hlist [JStr "user"]). reflexivity.
Defined.

Lemma fetch_only_past_ttl_witness :
  let net := serves (jwks [entry "k1"]) in
  let r1 := getSigningKey 1000 net (JStr "k1") ready in
  let r2 := getSigningKey 1200 net (JStr "k1") (after r1) in
  let r3 := getSigningKey 1400 net (JStr "k1") (after r2) in
  fetches (calls r1 ++ calls r2) = 1%nat /\ fetches (calls r3) = 1%nat.
Proof.
  destruct (fetch_only_past_ttl ready) as [_ Hseq].
  apply (Hseq 1000 1200 1400).
  - unfold stale. cbn. lia.
  - vm_compute. reflexivity.
  - cbn. lia.
  - cbn. lia.
Defined.

(** C8, the claim as written fails: a discovery document with neither
    issuer nor jwks_uri is accepted and stored. *)
Lemma init_accepts_document_without_fields :
  let r := init (serves (JObj [])) fresh_instance in
  subscript (JObj []) "issuer" = Err (KeyError "issuer")
  /\ subscript (JObj []) "jwks_uri" = Err (KeyError "jwks_uri")
  /\ ended r = Ok tt
  /\ oidc_config (after r) = JObj [].
Proof. cbn zeta. repeat split; vm_compute; reflexivity. Qed.

(** C9, the claim as written fails: a realm_access that is null makes the
    record construction raise, and [require_auth] with it. *)
Lemma null_realm_access_raises :
  user_of_payload [("sub", JStr "bob"); ("realm_access", JNull)]
  = Err AttributeError
  /\ ended (require_auth 1100 down (bearer "odd") warm) = Err AttributeError.
Proof. split; vm_compute; reflexivity. Qed.

(** A resource_access that is not an object is passed on, not emptied. *)
Lemma odd_resource_access_is_kept :
  exists u, user_of_payload [("resource_access", JStr "x")] = Ok u
            /\ client_roles u = JStr "x".
Proof. eexists. split; reflexivity. Qed.

Lemma user_record_with_object_realm_access_witness :
  let payload := [("sub", JStr "alice");
                  ("realm_access", JObj [("roles", JArr [JStr "user"])])] in
  exists u,
    user_of_payload payload = Ok u
    /\ token_payload u = payload
    /\ user_id u = default JNull (dict_find payload "sub")
    /\ username u = default JNull (dict_find payload "preferred_username")
    /\ email u = default JNull (dict_find payload "email")
    /\ name u = default JNull (dict_find payload "name")
    /\ client_roles u = default (JObj []) (dict_find payload "resource_access")
    /\ roles u =
       match dict_find payload "realm_access" with
       | Some (JObj d) => default (JArr []) (dict_find d "roles")
       | _ => JArr []
       end.
Proof.
  cbn zeta. apply user_record_with_object_realm_access.
  right. exists [("roles", JArr [JStr "user"])]. reflexivity.
Defined.

(** C10, the claim as written fails: with nothing cached and the JWKS
    endpoint down, the optional dependency raises the fetch error; so it
    does for a kid that cannot be hashed and for a null realm_access. *)
Lemma get_current_user_can_raise :
  ended (get_current_user 2000 down (bearer "alice") ready) = Err TransportError
  /\ ended (get_current_user 1100 down (bearer "listkid") warm) = Err TypeError
  /\ ended (get_current_user 1100 down (bearer "odd") warm) = Err AttributeError.
Proof. repeat split; vm_compute; reflexivity. Qed.

Lemma get_current_user_outcomes_witness :
  ended (validate_token_try 1100 down "forged" warm)
  = Err (JWTError (JoseMessage "Signature verification failed."))
  /\ ended (get_current_user 1100 down (bearer "forged") warm) = Ok None.
Proof.
  assert (ended (validate_token_try 1100 down "forged" warm)
          = Err (JWTError (JoseMessage "Signature verification failed.")))
    as Hje by (vm_compute; reflexivity).
  split; [exact Hje|].
  destruct (get_current_user_outcomes warm 1100 down) as [_ Hsome].
  destruct (Hsome {| scheme := "Bearer"; credentials := "forged" |})
    as (_ & _ & _ & Hnone).
  exact (Hnone _ Hje).
Defined.

(** The end-to-end scenario of the design notes: the token of alice is
    accepted, her roles are {user}, "admin" is refused and "user" is
    granted. *)
Lemma end_to_end_scenario :
  let net := serves (jwks [entry "k1"]) in
  exists u,
    ended (require_auth 1000 net (bearer "alice") ready) = Ok u
    /\ roles u = JArr [JStr "user"]
    /\ has_role (token_payload u) ["admin"] = Ok false
    /\ has_role (token_payload u) ["user"] = Ok true
    /\ ended (require_roles ["admin"] 1000 net (bearer "alice") ready)
       = Err (HTTPException 403 (AccessDenied ["admin"])).
Proof. eexists. repeat split; vm_compute; reflexivity. Qed.

End Runs.


(** * Further properties of the code *)

(** ** Running a method one statement at a time *)

Section Steps.
Context `{Jose}.
Implicit Types (st : middleware).

Lemma run_nil_calls {A} (r : run A) : Run (ended r) (after r) ([] ++ calls r) = r.
Proof. destruct r; reflexivity. Qed.

Lemma bind_lift_ok {A B} (a : A) (k : A -> M B) st :
  (lift (Ok a) ≫= k) st = k a st.
Proof. apply run_nil_calls. Qed.

Lemma bind_lift_err {A B} (e : exn) (k : A -> M B) st :
  (lift (Err e) ≫= k) st = Run (Err e) st [].
Proof. reflexivity. Qed.

Lemma bind_get_self {B} (k : middleware -> M B) st :
  (get_self ≫= k) st = k st st.
Proof. apply run_nil_calls. Qed.

Lemma bind_assign {B} (f : middleware -> middleware) (k : unit -> M B) st :
  (assign f ≫= k) st = k tt (f st).
Proof. apply run_nil_calls. Qed.

Lemma bind_raise {A B} (e : exn) (k : A -> M B) st :
  (raise e ≫= k) st = Run (Err e) st [].
Proof. reflexivity. Qed.

(** Sequencing after a method that has been run. *)
Lemma bind_run {A B} (m : M A) (k : A -> M B) st :
  (m ≫= k) st =
  match ended (m st) with
  | Ok a => Run (ended (k a (after (m st)))) (after (k a (after (m st))))
              (calls (m st) ++ calls (k a (after (m st))))
  | Err e => Run (Err e) (after (m st)) (calls (m st))
  end.
Proof. reflexivity. Qed.

Lemma http_get_json_run net url st :
  http_get_json net url st = Run (reply_result (net url)) st [EvGet url].
Proof. unfold http_get_json. rewrite bind_run. cbn. by destruct (reply_result _). Qed.

End Steps.

(** ** What a refresh stores *)

Section RefreshFacts.
Context `{Jose}.
Implicit Types (st : middleware) (net : json -> http_reply).

Lemma set_jwks_keys_same st : set_jwks_keys (jwks_keys st) st = st.
Proof. destruct st; reflexivity. Qed.

(** The loop stores the parsed prefix and ends as the first failing entry
    says. *)
Lemma for_each_store_run entries st :
  for_each entries store_key st =
  Run (match snd (parse_prefix entries) with
       | None => Ok tt
       | Some e => Err e
       end)
      (set_jwks_keys (store_all (fst (parse_prefix entries)) (jwks_keys st)) st)
      [].
Proof.
  revert st. induction entries as [|x rest IH]; intros st; cbn [for_each parse_prefix].
  - cbn. by rewrite set_jwks_keys_same.
  - rewrite bind_run, store_key_run.
    destruct (parse_entry x) as [kv|e]; cbn [ended after calls].
    + rewrite IH. destruct (parse_prefix rest) as [parsed stop]; cbn.
      reflexivity.
    + cbn. by rewrite set_jwks_keys_same.
Qed.

(** [refresh] when the discovery document gives no jwks_uri: nothing is
    fetched, nothing assigned. *)
Lemma refresh_without_uri now net st e :
  subscript (oidc_config st) "jwks_uri" = Err e ->
  refresh now net st = Run (Err e) st [].
Proof.
  intros Hu. unfold refresh. rewrite bind_get_self, Hu. apply bind_lift_err.
Qed.

(** [refresh] once the endpoint has answered with a document whose "keys"
    can be iterated. *)
Lemma refresh_on_body st now net uri doc ks entries :
  subscript (oidc_config st) "jwks_uri" = Ok uri ->
  reply_result (net uri) = Ok doc ->
  subscript doc "keys" = Ok ks ->
  py_iter ks = Ok entries ->
  refresh now net st =
  let new := store_all (fst (parse_prefix entries)) ∅ in
  match snd (parse_prefix entries) with
  | None => Run (Ok tt) (set_jwks_last_fetch now (set_jwks_keys new st))
              [EvGet uri]
  | Some e => Run (Err e) (set_jwks_keys new st) [EvGet uri]
  end.
Proof.
  intros Hu Hr Hk Hi. unfold refresh.
  rewrite bind_get_self, Hu, bind_lift_ok.
  rewrite bind_run, http_get_json_run, Hr. cbn [ended after calls].
  rewrite bind_assign, Hk, bind_lift_ok, Hi, bind_lift_ok.
  rewrite bind_run, for_each_store_run. cbn [ended after calls].
  destruct (snd (parse_prefix entries)); reflexivity.
Qed.

Lemma store_all_dom parsed (ks : gmap pykey Key) k :
  is_Some (store_all parsed ks !! k) <->
  is_Some (ks !! k) \/ exists key, In (k, key) parsed.
Proof.
  revert ks. induction parsed as [|[k' key'] rest IH]; intros ks; cbn.
  - split; [auto|]. intros [?|[? []]]; done.
  - rewrite IH. destruct (decide (k' = k)) as [->|Hne].
    + rewrite lookup_insert_eq. split; [|eauto]. intros _. right. eauto.
    + rewrite lookup_insert_ne by done. split.
      * intros [?|[key ?]]; [by left|right; eauto].
      * intros [?|[key [Heq|?]]]; [by left| |right; eauto].
        congruence.
Qed.

Lemma store_all_absent parsed (ks : gmap pykey Key) k :
  (forall key, ~ In (k, key) parsed) ->
  store_all parsed ks !! k = ks !! k.
Proof.
  revert ks. induction parsed as [|[k' key'] rest IH]; intros ks Hno; cbn.
  - done.
  - rewrite IH by (intros key Hin; apply (Hno key); by right).
    apply lookup_insert_ne. intros ->. apply (Hno key'). by left.
Qed.

Lemma store_all_last before k key behind (ks : gmap pykey Key) :
  (forall key', ~ In (k, key') behind) ->
  store_all (before ++ (k, key) :: behind) ks !! k = Some key.
Proof.
  revert ks. induction before as [|kv rest IH]; intros ks Hno; cbn.
  - rewrite store_all_absent by done. apply lookup_insert_eq.
  - by apply IH.
Qed.

Lemma store_all_nonempty parsed (ks : gmap pykey Key) :
  parsed <> [] -> store_all parsed ks <> ∅.
Proof.
  destruct parsed as [|[k key] rest]; [done|]. intros _ Hempty.
  assert (is_Some (store_all ((k, key) :: rest) ks !! k)) as [x Hx].
  { apply store_all_dom. right. exists key. by left. }
  rewrite Hempty, lookup_empty in Hx. done.
Qed.

(** [get_jwks_keys] once the endpoint has answered with a document whose
    "keys" can be iterated. *)
Lemma get_jwks_keys_on_body st now net uri doc ks entries :
  stale st now ->
  subscript (oidc_config st) "jwks_uri" = Ok uri ->
  reply_result (net uri) = Ok doc ->
  subscript doc "keys" = Ok ks ->
  py_iter ks = Ok entries ->
  get_jwks_keys now net st =
  let new := store_all (fst (parse_prefix entries)) ∅ in
  match snd (parse_prefix entries) with
  | None => Run (Ok new) (set_jwks_last_fetch now (set_jwks_keys new st))
              [EvGet uri]
  | Some e => Run (if is_empty new then Err e else Ok new)
                (set_jwks_keys new st) [EvGet uri]
  end.
Proof.
  intros Hs Hu Hr Hk Hi. rewrite get_jwks_keys_stale by done.
  rewrite (refresh_on_body st now net uri doc ks entries) by done.
  cbn zeta. destruct (snd (parse_prefix entries)); cbn [ended after calls];
    [|reflexivity].
  destruct (is_empty _); reflexivity.
Qed.

(** X1: a refresh in which every entry parses replaces the cache by
    exactly the entries of the document, whatever was cached before: a
    kid is cached afterwards iff the document has an entry for it, the
    last entry of a kid is the one kept, and the fetch time becomes
    [now]. *)
Theorem refresh_replaces_keyset st now net uri doc ks entries parsed :
  stale st now ->
  subscript (oidc_config st) "jwks_uri" = Ok uri ->
  reply_result (net uri) = Ok doc ->
  subscript doc "keys" = Ok ks ->
  py_iter ks = Ok entries ->
  parse_prefix entries = (parsed, None) ->
  let new := store_all parsed ∅ in
  get_jwks_keys now net st
  = Run (Ok new) (set_jwks_last_fetch now (set_jwks_keys new st)) [EvGet uri]
  /\ (forall k, is_Some (new !! k) <-> exists key, In (k, key) parsed)
  /\ (forall before k key behind,
        parsed = (before ++ (k, key) :: behind)%list ->
        (forall key', ~ In (k, key') behind) ->
        new !! k = Some key).
Proof.
  intros Hs Hu Hr Hk Hi Hp new. split; [|split].
  - rewrite (get_jwks_keys_on_body st now net uri doc ks entries) by done.
    rewrite Hp. reflexivity.
  - intros k. unfold new. rewrite store_all_dom, lookup_empty.
    split; [intros [[? ?]|?]; done|auto].
  - intros before k key behind -> Hno. by apply store_all_last.
Qed.

(** X2: when an entry raises, the entries before it are what the cache
    holds afterwards and the fetch time stays; the error reaches the
    caller only if no entry came before. *)
Theorem entry_failure_keeps_parsed_prefix st now net uri doc ks entries parsed e :
  stale st now ->
  subscript (oidc_config st) "jwks_uri" = Ok uri ->
  reply_result (net uri) = Ok doc ->
  subscript doc "keys" = Ok ks ->
  py_iter ks = Ok entries ->
  parse_prefix entries = (parsed, Some e) ->
  let r := get_jwks_keys now net st in
  after r = set_jwks_keys (store_all parsed ∅) st
  /\ jwks_last_fetch (after r) = jwks_last_fetch st
  /\ calls r = [EvGet uri]
  /\ ended r = match parsed with
               | [] => Err e
               | _ => Ok (store_all parsed ∅)
               end.
Proof.
  intros Hs Hu Hr Hk Hi Hp r. unfold r.
  rewrite (get_jwks_keys_on_body st now net uri doc ks entries) by done.
  rewrite Hp. cbn. repeat split.
  destruct parsed as [|kv rest]; [reflexivity|].
  assert (is_empty (store_all (kv :: rest) ∅) = false) as ->; [|done].
  apply bool_decide_eq_false. by apply store_all_nonempty.
Qed.

(** X3: when the GET itself fails, [get_jwks_keys] leaves the instance
    as it was and answers from the cache: the cached key set if there is
    one, the fetch error if the cache is empty. *)
Theorem fetch_failure_answers_from_cache st now net uri e :
  stale st now ->
  subscript (oidc_config st) "jwks_uri" = Ok uri ->
  reply_result (net uri) = Err e ->
  get_jwks_keys now net st
  = Run (if is_empty (jwks_keys st) then Err e else Ok (jwks_keys st))
      st [EvGet uri].
Proof.
  intros Hs Hu Hr. rewrite get_jwks_keys_stale by done.
  rewrite (refresh_fetch_failure now net st uri e) by done. cbn.
  destruct (is_empty (jwks_keys st)); reflexivity.
Qed.

(** X4: a fetch that fails leaves the instance exactly as it was - the
    fetch time included - so every later call fetches again. *)
Theorem failed_fetch_is_retried st t1 t2 net1 net2 kid1 kid2 uri e :
  stale st t1 ->
  subscript (oidc_config st) "jwks_uri" = Ok uri ->
  reply_result (net1 uri) = Err e ->
  t1 <= t2 ->
  let r1 := getSigningKey t1 net1 kid1 st in
  after r1 = st
  /\ calls r1 = [EvGet uri]
  /\ calls (getSigningKey t2 net2 kid2 (after r1)) = [EvGet uri].
Proof.
  intros Hs Hu Hr Hle r1.
  assert (after r1 = st /\ calls r1 = [EvGet uri]) as [Ha Hc].
  { unfold r1. destruct (getSigningKey_run t1 net1 kid1 st) as (-> & -> & _).
    rewrite get_jwks_keys_stale by done.
    rewrite (refresh_fetch_failure t1 net1 st uri e) by done. cbn.
    destruct (is_empty _); done. }
  split; [done|]. split; [done|]. rewrite Ha.
  destruct (getSigningKey_run t2 net2 kid2 st) as (_ & -> & _).
  rewrite get_jwks_keys_calls, refresh_calls, Hu.
  assert ((t2 - jwks_last_fetch st >? jwks_cache_ttl st) = true) as ->; [|done].
  apply stale_test. unfold stale in *. lia.
Qed.

(** X5: keys in the cache always come with a jwks_uri in the discovery
    document; a key lookup keeps it so. *)
Theorem cache_has_source_kept st now net kid :
  cache_has_source st ->
  cache_has_source (after (getSigningKey now net kid st)).
Proof.
  intros Hinv. destruct (getSigningKey_run now net kid st) as (-> & _).
  unfold cache_has_source.
  destruct (get_jwks_keys_frame now net st) as (-> & _).
  destruct (subscript (oidc_config st) "jwks_uri") as [uri|e] eqn:Hu; [eauto|].
  intros Hne. exfalso.
  destruct (now - jwks_last_fetch st >? jwks_cache_ttl st) eqn:E.
  - apply stale_test in E. rewrite get_jwks_keys_stale in Hne by done.
    rewrite (refresh_without_uri now net st e) in Hne by done. cbn in Hne.
    destruct (is_empty (jwks_keys st)); cbn in Hne;
      destruct (Hinv Hne) as [? ?]; congruence.
  - apply fresh_test in E. rewrite get_jwks_keys_fresh in Hne by done.
    cbn in Hne. destruct (Hinv Hne) as [? ?]; congruence.
Qed.

End RefreshFacts.

(** ** Validation, step by step *)

Section ValidationFacts.
Context `{Jose}.
Implicit Types (st : middleware) (net : json -> http_reply).

Lemma subscript_error v k e :
  subscript v k = Err e -> e = KeyError k \/ e = TypeError.
Proof.
  destruct v; cbn; try (intros [= <-]; by right).
  destruct (dict_find fields k); [done|]. intros [= <-]. by left.
Qed.

(** The [try] block once the header carries a kid. *)
Lemma validate_token_try_run st now net token hdr :
  get_unverified_header token = Ok hdr ->
  truthy (dict_get hdr "kid" JNull) = true ->
  validate_token_try now net token st =
  let g := getSigningKey now net (dict_get hdr "kid" JNull) st in
  match ended g with
  | Err e => Run (Err e) (after g) (calls g)
  | Ok key =>
      match subscript (oidc_config st) "issuer" with
      | Err e => Run (Err e) (after g) (calls g)
      | Ok issuer =>
          Run (jwt_decode token key ["RS256"] (client_id st) issuer)
            (after g) (calls g ++ [EvDecode ["RS256"]])
      end
  end.
Proof.
  intros Hh Hk. unfold validate_token_try.
  rewrite Hh, bind_lift_ok. cbn zeta. rewrite Hk. cbn [negb].
  rewrite bind_run.
  pose proof (getSigningKey_frame now net (dict_get hdr "kid" JNull) st)
    as [Hcfg Hcid].
  destruct (getSigningKey now net (dict_get hdr "kid" JNull) st)
    as [[key|e] st' tr]; cbn [ended after calls] in *; [|reflexivity].
  rewrite bind_get_self, Hcfg, Hcid.
  destruct (subscript (oidc_config st) "issuer") as [issuer|e].
  - rewrite bind_lift_ok, bind_run. reflexivity.
  - rewrite bind_lift_err. cbn. by rewrite ?app_nil_r.
Qed.

(** The [try] block when the header is unreadable or names no kid. *)
Lemma validate_token_try_no_kid st now net token :
  (forall e,
     get_unverified_header token = Err e ->
     validate_token_try now net token st = Run (Err e) st [])
  /\ (forall hdr,
        get_unverified_header token = Ok hdr ->
        truthy (dict_get hdr "kid" JNull) = false ->
        validate_token_try now net token st
        = Run (Err (JWTError MissingKid)) st []).
Proof.
  split.
  - intros e Hh. unfold validate_token_try. rewrite Hh. apply bind_lift_err.
  - intros hdr Hh Hk. unfold validate_token_try.
    rewrite Hh, bind_lift_ok. cbn zeta. rewrite Hk. reflexivity.
Qed.

(** Where [validate_token] leaves the instance and what it called. *)
Lemma validate_token_shape st now net token :
  let v := validate_token now net token st in
  (after v = st /\ calls v = [])
  \/ exists kid,
       let g := getSigningKey now net kid st in
       after v = after g
       /\ (calls v = calls g \/ calls v = (calls g ++ [EvDecode ["RS256"]])%list).
Proof.
  cbn zeta.
  destruct (validate_token_run now net token st) as (-> & -> & _).
  destruct (get_unverified_header token) as [hdr|e] eqn:Hh.
  - destruct (truthy (dict_get hdr "kid" JNull)) eqn:Hk.
    + right. exists (dict_get hdr "kid" JNull).
      rewrite (validate_token_try_run st now net token hdr) by done. cbn.
      destruct (ended (getSigningKey _ _ _ _)); [|auto].
      destruct (subscript _ _); auto.
    + left.
      destruct (validate_token_try_no_kid st now net token) as [_ Hno].
      rewrite (Hno hdr) by done. done.
  - left. destruct (validate_token_try_no_kid st now net token) as [Hbad _].
    rewrite (Hbad e) by done. done.
Qed.

(** X6: a token whose header cannot be read, or whose header has no kid
    (or an empty, zero or null one), is answered with a 401 before the
    cache or the network is touched. *)
Theorem validate_token_rejects_unusable_header st now net token :
  (forall je,
     get_unverified_header token = Err (JWTError je) ->
     validate_token now net token st
     = Run (Err (HTTPException 401 (TokenValidationFailed je))) st [])
  /\ (forall hdr,
        get_unverified_header token = Ok hdr ->
        truthy (dict_get hdr "kid" JNull) = false ->
        validate_token now net token st
        = Run (Err (HTTPException 401 (TokenValidationFailed MissingKid))) st []).
Proof.
  destruct (validate_token_try_no_kid st now net token) as [Hbad Hno].
  split.
  - intros je Hh. rewrite <- (run_eta (validate_token now net token st)).
    destruct (validate_token_run now net token st) as (-> & -> & ->).
    rewrite (Hbad _ Hh). reflexivity.
  - intros hdr Hh Hk. rewrite <- (run_eta (validate_token now net token st)).
    destruct (validate_token_run now net token st) as (-> & -> & ->).
    rewrite (Hno _ Hh Hk). reflexivity.
Qed.

(** X7: a kid that is not in the key set [get_jwks_keys] returns is a
    401 naming the kid, and [jwt.decode] is never called for it. *)
Theorem validate_token_unknown_kid st now net token hdr cached k :
  get_unverified_header token = Ok hdr ->
  truthy (dict_get hdr "kid" JNull) = true ->
  ended (get_jwks_keys now net st) = Ok cached ->
  hash_key (dict_get hdr "kid" JNull) = Ok k ->
  cached !! k = None ->
  let v := validate_token now net token st in
  ended v = Err (HTTPException 401
                   (TokenValidationFailed (KeyNotFound (dict_get hdr "kid" JNull))))
  /\ algorithms_used (calls v) = []
  /\ after v = after (get_jwks_keys now net st).
Proof.
  intros Hh Hk Hg Hhash Hnone v. unfold v.
  destruct (validate_token_run now net token st) as (-> & -> & ->).
  rewrite (validate_token_try_run st now net token hdr) by done. cbn zeta.
  destruct (getSigningKey_run now net (dict_get hdr "kid" JNull) st)
    as (Ha & Hc & He).
  rewrite Hg, Hhash, Hnone in He. rewrite He. cbn.
  rewrite Ha. split; [done|]. split; [|done].
  apply getSigningKey_no_decode.
Qed.

(** X8: once the key is found and the discovery document has an issuer,
    the verdict is that of [jwt.decode] on the token, the cached key, the
    allow-list ["RS256"], the configured client id as audience and the
    document's issuer; only a [JWTError] is turned into a 401. *)
Theorem validate_token_decode_verdict st now net token hdr key issuer :
  get_unverified_header token = Ok hdr ->
  truthy (dict_get hdr "kid" JNull) = true ->
  ended (getSigningKey now net (dict_get hdr "kid" JNull) st) = Ok key ->
  subscript (oidc_config st) "issuer" = Ok issuer ->
  let g := getSigningKey now net (dict_get hdr "kid" JNull) st in
  let v := validate_token now net token st in
  ended v = match jwt_decode token key ["RS256"] (client_id st) issuer with
            | Err (JWTError je) =>
                Err (HTTPException 401 (TokenValidationFailed je))
            | verdict => verdict
            end
  /\ calls v = (calls g ++ [EvDecode ["RS256"]])%list
  /\ after v = after g.
Proof.
  intros Hh Hk Hg Hi g v. unfold v, g.
  destruct (validate_token_run now net token st) as (-> & -> & ->).
  rewrite (validate_token_try_run st now net token hdr) by done. cbn zeta.
  rewrite Hg, Hi. cbn. done.
Qed.

(** X9: a discovery document without issuer is not an authentication
    failure: with the key found, [validate_token] raises the lookup
    error itself (KeyError or TypeError), and [jwt.decode] is not
    called. *)
Theorem validate_token_missing_issuer st now net token hdr key e :
  get_unverified_header token = Ok hdr ->
  truthy (dict_get hdr "kid" JNull) = true ->
  ended (getSigningKey now net (dict_get hdr "kid" JNull) st) = Ok key ->
  subscript (oidc_config st) "issuer" = Err e ->
  let v := validate_token now net token st in
  ended v = Err e
  /\ (e = KeyError "issuer" \/ e = TypeError)
  /\ algorithms_used (calls v) = [].
Proof.
  intros Hh Hk Hg Hi v. unfold v.
  destruct (validate_token_run now net token st) as (_ & -> & ->).
  rewrite (validate_token_try_run st now net token hdr) by done. cbn zeta.
  rewrite Hg, Hi. cbn.
  pose proof (subscript_error _ _ _ Hi) as He.
  split; [|split; [done|apply getSigningKey_no_decode]].
  destruct He as [-> | ->]; done.
Qed.

(** X10: within the TTL, validating a token reads the instance and
    leaves it as it was, and no GET is issued. *)
Theorem validate_token_fresh_is_read_only st now net token :
  ~ stale st now ->
  let v := validate_token now net token st in
  after v = st /\ fetches (calls v) = 0%nat.
Proof.
  intros Hf v.
  destruct (validate_token_shape st now net token) as [[Ha Hc]|(kid & Ha & Hc)];
    fold v in Ha, Hc.
  - rewrite Ha, Hc. done.
  - cbn zeta in Ha, Hc.
    destruct (getSigningKey_run now net kid st) as (Hga & Hgc & _).
    rewrite get_jwks_keys_fresh in Hga, Hgc by done. cbn in Hga, Hgc.
    rewrite Hga in Ha. rewrite Hgc in Hc. split; [done|].
    destruct Hc as [-> | ->]; done.
Qed.

(** X11: one validation issues at most one GET - to the jwks_uri of the
    discovery document - followed by at most one [jwt.decode]. *)
Theorem validate_token_call_shape st now net token :
  exists gets decodes,
    calls (validate_token now net token st) = (gets ++ decodes)%list
    /\ (gets = []
        \/ exists uri, subscript (oidc_config st) "jwks_uri" = Ok uri
                       /\ gets = [EvGet uri])
    /\ (decodes = [] \/ decodes = [EvDecode ["RS256"]]).
Proof.
  destruct (validate_token_shape st now net token) as [[_ Hc]|(kid & _ & Hc)].
  - exists [], []. rewrite Hc. auto.
  - cbn zeta in Hc.
    destruct (getSigningKey_run now net kid st) as (_ & Hgc & _).
    rewrite get_jwks_keys_calls, refresh_calls in Hgc. rewrite Hgc in Hc.
    exists (if now - jwks_last_fetch st >? jwks_cache_ttl st
            then match subscript (oidc_config st) "jwks_uri" with
                 | Ok uri => [EvGet uri]
                 | Err _ => []
                 end
            else []).
    destruct Hc as [Hc|Hc]; [exists []|exists [EvDecode ["RS256"]]];
      rewrite Hc, ?app_nil_r; (split; [done|]); (split; [|auto]);
      destruct (_ >? _); auto;
      destruct (subscript (oidc_config st) "jwks_uri"); eauto.
Qed.

(** X12: an instance without a usable jwks_uri and without cached keys -
    such as one whose [init] has not stored a document yet - answers a
    token that names a kid with the lookup error itself, not with a 401,
    and issues no GET. *)
Theorem validate_token_without_jwks_uri st now net token hdr e :
  jwks_keys st = ∅ ->
  stale st now ->
  subscript (oidc_config st) "jwks_uri" = Err e ->
  get_unverified_header token = Ok hdr ->
  truthy (dict_get hdr "kid" JNull) = true ->
  validate_token now net token st = Run (Err e) st [].
Proof.
  intros Hempty Hs Hu Hh Hk.
  rewrite <- (run_eta (validate_token now net token st)).
  destruct (validate_token_run now net token st) as (-> & -> & ->).
  rewrite (validate_token_try_run st now net token hdr) by done. cbn zeta.
  destruct (getSigningKey_run now net (dict_get hdr "kid" JNull) st)
    as (Ha & Hc & He).
  rewrite (missing_jwks_uri_fails_at_lookup st now net e) in Ha, Hc, He by done.
  cbn in Ha, Hc, He. rewrite He. cbn. rewrite Ha, Hc.
  destruct (subscript_error _ _ _ Hu) as [-> | ->]; reflexivity.
Qed.

End ValidationFacts.

(** ** Roles, beyond well-formed lists *)

Section RoleFacts.

Lemma append_cons c (a b : string) : String c a +:+ b = String c (a +:+ b).
Proof. reflexivity. Qed.

Lemma append_empty (b : string) : "" +:+ b = b.
Proof. reflexivity. Qed.

Lemma prefix_append needle hay :
  String.prefix needle hay = true <-> exists behind, hay = needle +:+ behind.
Proof.
  revert hay. induction needle as [|c needle IH]; intros hay.
  - destruct hay; cbn; (split; [intros _; eexists; reflexivity|done]).
  - destruct hay as [|c' hay]; cbn.
    + split; [done|]. intros [behind Hb]. rewrite append_cons in Hb. done.
    + destruct (Ascii.ascii_dec c c') as [->|Hne].
      * rewrite IH. split; intros [behind Hb]; exists behind;
          rewrite append_cons in *; congruence.
      * split; [done|]. intros [behind Hb]. rewrite append_cons in Hb.
        congruence.
Qed.

(** [substringb] is Python's [needle in hay] on strings. *)
Lemma substringb_spec needle hay :
  substringb needle hay = true <->
  exists before behind, hay = before +:+ needle +:+ behind.
Proof.
  induction hay as [|c hay IH]; cbn [substringb].
  - rewrite orb_false_r, prefix_append. split.
    + intros [behind Hb]. exists "", behind. by rewrite append_empty.
    + intros ([|c' before] & behind & Hb).
      * rewrite append_empty in Hb. by exists behind.
      * rewrite append_cons in Hb. done.
  - rewrite orb_true_iff, prefix_append, IH. split.
    + intros [[behind Hb]|(before & behind & Hb)].
      * exists "", behind. by rewrite append_empty.
      * exists (String c before), behind. rewrite append_cons. by rewrite Hb.
    + intros ([|c' before] & behind & Hb).
      * rewrite append_empty in Hb. left. by exists behind.
      * rewrite append_cons in Hb. right. exists before, behind. congruence.
Qed.

Lemma any_role_in_string s required :
  any_role_in (JStr s) required
  = Ok (existsb (fun role => substringb role s) required).
Proof.
  induction required as [|role rest IH]; cbn; [done|].
  destruct (substringb role s); cbn; done.
Qed.

(** X13: when the roles claim is a single string instead of a list,
    [has_role] tests for substrings: a required role is granted as soon
    as it occurs anywhere inside that string. *)
Theorem has_role_string_roles_match_substrings payload s required :
  realm_roles payload = Ok (JStr s) ->
  required <> [] ->
  exists b,
    has_role payload required = Ok b
    /\ (b = true <->
        exists role before behind,
          In role required /\ s = before +:+ role +:+ behind).
Proof.
  intros Hrs Hne.
  exists (existsb (fun role => substringb role s) required). split.
  - destruct required as [|r0 rest]; [done|].
    unfold has_role. rewrite Hrs. cbn [result_bind].
    apply any_role_in_string.
  - rewrite existsb_exists. split.
    + intros (role & Hin & Hsub). apply substringb_spec in Hsub
        as (before & behind & Hs). eauto.
    + intros (role & before & behind & Hin & Hs). exists role.
      split; [done|]. apply substringb_spec. eauto.
Qed.

(** X14: with a non-empty requirement, a realm_access that is present
    but not an object raises AttributeError, and a roles value that is
    null, a boolean or a number raises TypeError: [has_role] answers
    neither True nor False. *)
Theorem has_role_malformed_claims_raise payload required :
  required <> [] ->
  (forall v,
     dict_find payload "realm_access" = Some v ->
     (forall d, v <> JObj d) ->
     has_role payload required = Err AttributeError)
  /\ (forall v,
        realm_roles payload = Ok v ->
        (v = JNull \/ (exists b, v = JBool b) \/ exists n, v = JNum n) ->
        has_role payload required = Err TypeError).
Proof.
  intros Hne. destruct required as [|r0 rest]; [done|]. split.
  - intros v Hv Hobj. unfold has_role, realm_roles, dict_get. rewrite Hv.
    destruct v; try reflexivity. by destruct (Hobj fields).
  - intros v Hv Hshape. unfold has_role. rewrite Hv. cbn.
    destruct Hshape as [->|[[b ->]|[n ->]]]; reflexivity.
Qed.

Lemma any_role_in_more user_roles required more :
  any_role_in user_roles required = Ok true ->
  any_role_in user_roles (required ++ more) = Ok true.
Proof.
  induction required as [|role rest IH]; cbn; [done|].
  destruct (py_in role user_roles) as [[|]|e]; cbn; auto.
Qed.

(** X15: a non-empty requirement that is met stays met when more roles
    are appended to it - whereas the empty requirement, which lets
    everyone in, does not: appending a role to it can refuse. *)
Theorem has_role_more_required_roles payload required more :
  required <> [] ->
  has_role payload required = Ok true ->
  has_role payload (required ++ more) = Ok true.
Proof.
  intros Hne. destruct required as [|r0 rest]; [done|].
  unfold has_role. cbn [app].
  destruct (realm_roles payload) as [rs|e]; cbn [result_bind]; [|done].
  apply (any_role_in_more rs (r0 :: rest) more).
Qed.

Lemma user_of_payload_fields payload u :
  user_of_payload payload = Ok u ->
  token_payload u = payload /\ realm_roles payload = Ok (roles u).
Proof.
  unfold user_of_payload.
  destruct (realm_roles payload) as [rs|e]; cbn; [|done].
  intros [= <-]. done.
Qed.

End RoleFacts.


(** ** The dependencies and the handlers *)

Section DependencyFacts.
Context `{Jose}.
Implicit Types (st : middleware) (net : json -> http_reply).

Lemma require_auth_run now net creds st :
  require_auth now net creds st =
  match creds with
  | None => Run (Err (HTTPException 401 AuthenticationRequired)) st []
  | Some c =>
      let v := validate_token now net (credentials c) st in
      Run (match ended v with
           | Ok payload => user_of_payload payload
           | Err e => Err e
           end) (after v) (calls v)
  end.
Proof.
  destruct creds as [c|]; [|reflexivity]. unfold require_auth.
  rewrite bind_run. cbn zeta.
  destruct (validate_token now net (credentials c) st) as [[p|e] st' tr];
    cbn; [|reflexivity].
  by rewrite app_nil_r.
Qed.

Lemma require_auth_user now net creds st u :
  ended (require_auth now net creds st) = Ok u ->
  exists payload, user_of_payload payload = Ok u.
Proof.
  rewrite require_auth_run. destruct creds as [c|]; cbn; [|done].
  destruct (ended (validate_token _ _ _ _)) as [p|e]; [eauto|done].
Qed.

(** [get_current_user] in terms of [require_auth]. *)
Lemma get_current_user_run now net creds st :
  let a := require_auth now net creds st in
  get_current_user now net creds st =
  Run (match ended a with
       | Ok u => Ok (Some u)
       | Err (HTTPException _ _) => Ok None
       | Err e => Err e
       end) (after a) (calls a).
Proof.
  cbn zeta. rewrite require_auth_run.
  destruct creds as [c|]; [|reflexivity].
  unfold get_current_user, try_except. rewrite bind_run. cbn zeta.
  destruct (validate_token now net (credentials c) st) as [[p|e] st' tr];
    cbn [ended after calls].
  - rewrite bind_run. cbn [lift ended after calls].
    destruct (user_of_payload p) as [u|e] eqn:Hu; cbn.
    + by rewrite !app_nil_r.
    + apply user_of_payload_error in Hu. subst e. cbn.
      by rewrite !app_nil_r.
  - destruct e; cbn; by rewrite app_nil_r.
Qed.

(** X16: the optional dependency is the mandatory one with every
    [HTTPException] - the missing credentials included - turned into
    None: same instance afterwards, same calls, and no [HTTPException]
    ever leaves it. *)
Theorem get_current_user_mirrors_require_auth st now net creds :
  let a := require_auth now net creds st in
  let r := get_current_user now net creds st in
  after r = after a
  /\ calls r = calls a
  /\ ended r = match ended a with
               | Ok u => Ok (Some u)
               | Err (HTTPException _ _) => Ok None
               | Err e => Err e
               end
  /\ (forall code detail, ended r <> Err (HTTPException code detail)).
Proof.
  cbn zeta. rewrite get_current_user_run. cbn [ended after calls].
  repeat split. intros code detail.
  destruct (ended (require_auth now net creds st)) as [u|e]; [done|].
  destruct e; done.
Qed.

Lemma require_roles_run required now net creds st :
  let a := require_auth now net creds st in
  require_roles required now net creds st =
  Run (match ended a with
       | Err e => Err e
       | Ok u =>
           match has_role (token_payload u) required with
           | Ok true => Ok u
           | Ok false => Err (HTTPException 403 (AccessDenied required))
           | Err e => Err e
           end
       end) (after a) (calls a).
Proof.
  cbn zeta. unfold require_roles. rewrite bind_run.
  destruct (require_auth now net creds st) as [[u|e] st' tr];
    cbn [ended after calls]; [|reflexivity].
  destruct (has_role (token_payload u) required) as [[|]|e].
  - rewrite bind_lift_ok. cbn. by rewrite app_nil_r.
  - rewrite bind_lift_ok. cbn. by rewrite app_nil_r.
  - rewrite bind_lift_err. cbn. by rewrite app_nil_r.
Qed.

(** X17: requiring no role is requiring authentication. *)
Theorem require_roles_nil_is_require_auth st now net creds :
  require_roles [] now net creds st = require_auth now net creds st.
Proof.
  rewrite require_roles_run. cbn zeta.
  destruct (require_auth now net creds st) as [[u|e] st' tr]; reflexivity.
Qed.

(** X18: for an authenticated user whose roles are a list, the role
    gate returns that user exactly when the requirement is empty or one
    of the required roles is among the user's roles, and answers 403
    with the requirement otherwise. *)
Theorem require_roles_grants_any_of st now net creds required u rs :
  ended (require_auth now net creds st) = Ok u ->
  roles u = JArr rs ->
  let r := require_roles required now net creds st in
  (ended r = Ok u <->
   required = [] \/ exists role, In role required /\ In (JStr role) rs)
  /\ (ended r = Ok u
      \/ ended r = Err (HTTPException 403 (AccessDenied required))).
Proof.
  intros Ha Hrs r.
  assert (ended r = match has_role (token_payload u) required with
                    | Ok true => Ok u
                    | Ok false => Err (HTTPException 403 (AccessDenied required))
                    | Err e => Err e
                    end) as He.
  { unfold r. rewrite require_roles_run. cbn zeta. cbn [ended].
    by rewrite Ha. }
  destruct (require_auth_user _ _ _ _ _ Ha) as [p Hp].
  destruct (user_of_payload_fields _ _ Hp) as [Htp Hrr].
  rewrite Htp in He. rewrite Hrs in Hrr.
  destruct required as [|r0 rest].
  - cbn in He. rewrite He. split; [|by left]. split; auto.
  - unfold has_role in He. rewrite Hrr in He. cbn [result_bind] in He.
    rewrite any_role_in_list in He.
    destruct (existsb _ (r0 :: rest)) eqn:Hex; rewrite He.
    + split; [|by left]. split; [|done]. intros _. right.
      apply existsb_exists in Hex as (role & Hin & Hex).
      apply existsb_exists in Hex as (v & Hv & Hs).
      apply is_str_true in Hs. subst v. eauto.
    + split; [|by right]. split; [done|].
      intros [|(role & Hin & Hr)]; [done|]. exfalso.
      assert (existsb (fun role => existsb (is_str role) rs) (r0 :: rest) = true)
        as Htrue; [|congruence].
      apply existsb_exists. exists role. split; [done|].
      apply existsb_exists. exists (JStr role). split; [done|].
      by apply is_str_true.
Qed.

(** X19: the role gate never lets in anyone the authentication refused:
    what [require_auth] raises, [require_roles] raises, and whoever it
    returns was returned by [require_auth] and passed [has_role]. *)
Theorem require_roles_needs_authentication st now net creds required :
  let a := require_auth now net creds st in
  let r := require_roles required now net creds st in
  (forall e, ended a = Err e -> ended r = Err e)
  /\ (forall u, ended r = Ok u ->
        ended a = Ok u /\ has_role (token_payload u) required = Ok true).
Proof.
  cbn zeta. rewrite require_roles_run. cbn zeta. cbn [ended]. split.
  - intros e Ha. by rewrite Ha.
  - intros u Hu.
    destruct (ended (require_auth now net creds st)) as [u'|e]; [|done].
    destruct (has_role (token_payload u') required) as [[|]|e] eqn:Hr;
      [|done..].
    injection Hu as ->. done.
Qed.

(** X20: the optional handler never answers with an [HTTPException]: it
    reports the user when [require_auth] would return one, reports
    "not authenticated" when [require_auth] would raise an
    [HTTPException], and raises only what is not an [HTTPException]. *)
Theorem optional_endpoint_never_refuses st now net creds :
  ended (optional_endpoint now net creds st)
  = match ended (require_auth now net creds st) with
    | Ok u => Ok (OptionalBody true (Some u))
    | Err (HTTPException _ _) => Ok (OptionalBody false None)
    | Err e => Err e
    end.
Proof.
  unfold optional_endpoint, optional_auth.
  rewrite bind_run, get_current_user_run. cbn zeta. cbn [ended after calls].
  destruct (ended (require_auth now net creds st)) as [u|e]; [reflexivity|].
  destruct e; reflexivity.
Qed.

(** X21: the admin handler answers only for a user that [require_auth]
    returned and that passed the "admin" check; when that user's roles
    are a list, "admin" is in it. *)
Theorem admin_endpoint_needs_admin st now net creds b :
  ended (admin_endpoint now net creds st) = Ok b ->
  exists u,
    b = AdminBody u
    /\ ended (require_auth now net creds st) = Ok u
    /\ has_role (token_payload u) ["admin"] = Ok true
    /\ (forall rs, roles u = JArr rs -> In (JStr "admin") rs).
Proof.
  unfold admin_endpoint. rewrite bind_run, require_roles_run. cbn zeta.
  cbn [ended after calls].
  destruct (ended (require_auth now net creds st)) as [u|e] eqn:Ha; [|done].
  destruct (has_role (token_payload u) ["admin"]) as [[|]|e] eqn:Hr; [|done..].
  cbn. intros [= <-]. exists u. repeat split; [done|].
  intros rs Hrs.
  destruct (require_auth_user _ _ _ _ _ Ha) as [p Hp].
  destruct (user_of_payload_fields _ _ Hp) as [Htp Hrr].
  rewrite Htp in Hr. rewrite Hrs in Hrr.
  unfold has_role in Hr. rewrite Hrr in Hr. cbn in Hr.
  destruct (existsb (is_str "admin") rs) eqn:Hex; [|done].
  apply existsb_exists in Hex as (v & Hv & Hs).
  apply is_str_true in Hs. by subst v.
Qed.

End DependencyFacts.

(** ** What a request leaves alone *)

Section FrameFacts.
Context `{Jose}.
Implicit Types (st : middleware) (net : json -> http_reply).

(** [refresh] when the document has no "keys" that can be iterated: the
    cache has already been emptied. *)
Lemma refresh_on_unusable_keys st now net uri doc e :
  subscript (oidc_config st) "jwks_uri" = Ok uri ->
  reply_result (net uri) = Ok doc ->
  result_bind (subscript doc "keys") py_iter = Err e ->
  refresh now net st = Run (Err e) (set_jwks_keys ∅ st) [EvGet uri].
Proof.
  intros Hu Hr Hk. unfold refresh.
  rewrite bind_get_self, Hu, bind_lift_ok.
  rewrite bind_run, http_get_json_run, Hr. cbn [ended after calls].
  rewrite bind_assign.
  destruct (subscript doc "keys") as [ks|e']; cbn in Hk.
  - rewrite bind_lift_ok, Hk, bind_lift_err. reflexivity.
  - injection Hk as ->. rewrite bind_lift_err. reflexivity.
Qed.

(** X22: a JWKS body without "keys", or whose "keys" cannot be iterated,
    empties the cache: [get_jwks_keys] raises the lookup error even when
    keys were cached, and the next lookup starts from nothing. *)
Theorem unusable_keys_empty_the_cache st now net uri doc e :
  stale st now ->
  subscript (oidc_config st) "jwks_uri" = Ok uri ->
  reply_result (net uri) = Ok doc ->
  result_bind (subscript doc "keys") py_iter = Err e ->
  get_jwks_keys now net st = Run (Err e) (set_jwks_keys ∅ st) [EvGet uri].
Proof.
  intros Hs Hu Hr Hk. rewrite get_jwks_keys_stale by done.
  rewrite (refresh_on_unusable_keys st now net uri doc e) by done.
  reflexivity.
Qed.

Lemma set_both_same st :
  set_jwks_last_fetch (jwks_last_fetch st) (set_jwks_keys (jwks_keys st) st) = st.
Proof. destruct st; reflexivity. Qed.

(** Whatever [refresh] does, it only assigns the cache and its time. *)
Lemma refresh_after now net st :
  exists ks t,
    after (refresh now net st) = set_jwks_last_fetch t (set_jwks_keys ks st).
Proof.
  destruct (subscript (oidc_config st) "jwks_uri") as [uri|e] eqn:Hu.
  - destruct (reply_result (net uri)) as [doc|e] eqn:Hr.
    + destruct (result_bind (subscript doc "keys") py_iter) as [entries|e] eqn:Hk.
      * destruct (subscript doc "keys") as [ks|?] eqn:Hks; [|done].
        cbn in Hk.
        rewrite (refresh_on_body st now net uri doc ks entries) by done.
        cbn zeta. destruct (snd (parse_prefix entries)); cbn.
        -- eexists _, (jwks_last_fetch st). reflexivity.
        -- eexists _, now. reflexivity.
      * rewrite (refresh_on_unusable_keys st now net uri doc e) by done.
        exists ∅, (jwks_last_fetch st). reflexivity.
    + rewrite (refresh_fetch_failure now net st uri e) by done.
      exists (jwks_keys st), (jwks_last_fetch st). cbn.
      by rewrite set_both_same.
  - rewrite (refresh_without_uri now net st e) by done.
    exists (jwks_keys st), (jwks_last_fetch st). cbn. by rewrite set_both_same.
Qed.

Lemma get_jwks_keys_configuration now net st :
  configuration (after (get_jwks_keys now net st)) = configuration st.
Proof.
  destruct (now - jwks_last_fetch st >? jwks_cache_ttl st) eqn:E.
  - apply stale_test in E. rewrite get_jwks_keys_stale by done. cbn zeta.
    destruct (refresh_after now net st) as (ks & t & Ha).
    destruct (ended (refresh now net st)); [|destruct (is_empty _)];
      cbn [after]; rewrite Ha; reflexivity.
  - apply fresh_test in E. by rewrite get_jwks_keys_fresh.
Qed.

Lemma validate_token_configuration now net token st :
  configuration (after (validate_token now net token st)) = configuration st.
Proof.
  destruct (validate_token_shape st now net token) as [[-> _]|(kid & Ha & _)];
    [done|].
  cbn zeta in Ha. rewrite Ha.
  destruct (getSigningKey_run now net kid st) as (-> & _).
  apply get_jwks_keys_configuration.
Qed.

(** X23: no request changes the configuration: after [require_roles]
    (and so after [require_auth]) and after [get_current_user], the base
    URL, the realm, the client id, the TTL and the discovery document are
    what they were. *)
Theorem requests_keep_configuration st now net creds required :
  configuration (after (require_roles required now net creds st))
  = configuration st
  /\ configuration (after (get_current_user now net creds st))
     = configuration st.
Proof.
  assert (configuration (after (require_auth now net creds st))
          = configuration st) as Ha.
  { rewrite require_auth_run. destruct creds as [c|]; [|done]. cbn.
    apply validate_token_configuration. }
  split.
  - rewrite require_roles_run. cbn zeta. cbn [after]. done.
  - rewrite get_current_user_run. cbn zeta. cbn [after]. done.
Qed.

(** X24: an instance that [__init__] has just made - whatever its
    arguments and the environment - has no discovery document and no
    key: a token naming a kid gets a TypeError once the clock is past
    the TTL, and the unknown-key 401 before that; no GET is issued and
    the instance stays as made. *)
Theorem new_instance_cannot_validate env url rlm client ttl now net token hdr k :
  get_unverified_header token = Ok hdr ->
  truthy (dict_get hdr "kid" JNull) = true ->
  hash_key (dict_get hdr "kid" JNull) = Ok k ->
  let st := __init__ env url rlm client ttl in
  validate_token now net token st
  = Run (if now >? ttl then Err TypeError
         else Err (HTTPException 401
                     (TokenValidationFailed
                        (KeyNotFound (dict_get hdr "kid" JNull)))))
      st [].
Proof.
  intros Hh Hk Hhash st.
  rewrite <- (run_eta (validate_token now net token st)).
  destruct (validate_token_run now net token st) as (-> & -> & ->).
  rewrite (validate_token_try_run st now net token hdr) by done. cbn zeta.
  destruct (getSigningKey_run now net (dict_get hdr "kid" JNull) st)
    as (Ha & Hc & He).
  destruct (now >? ttl) eqn:E.
  - assert (stale st now) as Hs.
    { apply stale_test. cbn. by rewrite Z.sub_0_r. }
    rewrite (missing_jwks_uri_fails_at_lookup st now net TypeError)
      in Ha, Hc, He by done.
    cbn in Ha, Hc, He. rewrite He. cbn. rewrite Ha, Hc. reflexivity.
  - assert (~ stale st now) as Hf.
    { apply fresh_test. cbn. by rewrite Z.sub_0_r. }
    rewrite get_jwks_keys_fresh in Ha, Hc, He by done.
    cbn in Ha, Hc, He. rewrite Hhash, lookup_empty in He.
    rewrite He. cbn. rewrite Ha, Hc. reflexivity.
Qed.

End FrameFacts.

(** ** The further properties on concrete inputs *)

Section MoreRuns.
Import Toy.
Local Existing Instance jose.

Lemma refresh_replaces_keyset_witness :
  get_jwks_keys 1000 (serves (jwks [entry "k1"; entry "k2"])) ready
  = Run (Ok (store_all [(KStr "k1", entry "k1"); (KStr "k2", entry "k2")] ∅))
      (set_jwks_last_fetch 1000
         (set_jwks_keys
            (store_all [(KStr "k1", entry "k1"); (KStr "k2", entry "k2")] ∅)
            ready))
      [EvGet (JStr "https://idp/realms/r/jwks")].
Proof.
  apply (refresh_replaces_keyset ready 1000
           (serves (jwks [entry "k1"; entry "k2"]))
           (JStr "https://idp/realms/r/jwks")
           (jwks [entry "k1"; entry "k2"])
           (JArr [entry "k1"; entry "k2"])
           [entry "k1"; entry "k2"]
           [(KStr "k1", entry "k1"); (KStr "k2", entry "k2")]).
  - unfold stale. cbn. lia.
  - reflexivity.
  - reflexivity.
  - reflexivity.
  - reflexivity.
  - reflexivity.
Defined.

Lemma entry_failure_keeps_parsed_prefix_witness :
  let r := get_jwks_keys 2000
             (serves (jwks [entry "new"; JObj [("kty", JStr "RSA")]])) warm in
  after r = set_jwks_keys (store_all [(KStr "new", entry "new")] ∅) warm
  /\ jwks_last_fetch (after r) = jwks_last_fetch warm
  /\ calls r = [EvGet (JStr "https://idp/realms/r/jwks")]
  /\ ended r = Ok (store_all [(KStr "new", entry "new")] ∅).
Proof.
  apply (entry_failure_keeps_parsed_prefix warm 2000
           (serves (jwks [entry "new"; JObj [("kty", JStr "RSA")]]))
           (JStr "https://idp/realms/r/jwks")
           (jwks [entry "new"; JObj [("kty", JStr "RSA")]])
           (JArr [entry "new"; JObj [("kty", JStr "RSA")]])
           [entry "new"; JObj [("kty", JStr "RSA")]]
           [(KStr "new", entry "new")] (KeyError "kid")).
  - apply stale_warm_2000.
  - reflexivity.
  - reflexivity.
  - reflexivity.
  - reflexivity.
  - reflexivity.
Defined.

Lemma unusable_keys_empty_the_cache_witness :
  get_jwks_keys 2000 (serves (JObj [])) warm
  = Run (Err (KeyError "keys")) (set_jwks_keys ∅ warm)
      [EvGet (JStr "https://idp/realms/r/jwks")].
Proof.
  apply (unusable_keys_empty_the_cache warm 2000 (serves (JObj []))
           (JStr "https://idp/realms/r/jwks") (JObj [])).
  - apply stale_warm_2000.
  - reflexivity.
  - reflexivity.
  - reflexivity.
Defined.

Lemma fetch_failure_answers_from_cache_witness :
  get_jwks_keys 2000 down warm
  = Run (if is_empty (jwks_keys warm) then Err TransportError
         else Ok (jwks_keys warm))
      warm [EvGet (JStr "https://idp/realms/r/jwks")].
Proof.
  apply (fetch_failure_answers_from_cache warm 2000 down).
  - apply stale_warm_2000.
  - reflexivity.
  - reflexivity.
Defined.

Lemma failed_fetch_is_retried_witness :
  let r1 := getSigningKey 2000 down (JStr "k1") warm in
  after r1 = warm
  /\ calls r1 = [EvGet (JStr "https://idp/realms/r/jwks")]
  /\ calls (getSigningKey 2001 down (JStr "k1") (after r1))
     = [EvGet (JStr "https://idp/realms/r/jwks")].
Proof.
  apply (failed_fetch_is_retried warm 2000 2001 down down (JStr "k1") (JStr "k1")
           (JStr "https://idp/realms/r/jwks") TransportError).
  - apply stale_warm_2000.
  - reflexivity.
  - reflexivity.
  - lia.
Defined.

Lemma cache_has_source_warm : cache_has_source warm.
Proof. intros _. eexists. reflexivity. Defined.

Lemma cache_has_source_kept_witness :
  cache_has_source (after (getSigningKey 2000 (serves (jwks [entry "k2"]))
                             (JStr "k1") warm)).
Proof. apply cache_has_source_kept. apply cache_has_source_warm. Defined.

Lemma validate_token_rejects_unusable_header_witness :
  validate_token 1100 down "garbage" warm
  = Run (Err (HTTPException 401
                (TokenValidationFailed
                   (JoseMessage "Error decoding token headers.")))) warm []
  /\ validate_token 1100 down "nokid" warm
     = Run (Err (HTTPException 401 (TokenValidationFailed MissingKid))) warm [].
Proof.
  split.
  - destruct (validate_token_rejects_unusable_header warm 1100 down "garbage")
      as [Hbad _].
    apply Hbad. reflexivity.
  - destruct (validate_token_rejects_unusable_header warm 1100 down "nokid")
      as [_ Hno].
    apply (Hno [("alg", JStr "RS256")]); reflexivity.
Defined.

Lemma validate_token_unknown_kid_witness :
  let v := validate_token 1000 (serves (jwks [entry "k2"])) "alice" ready in
  ended v = Err (HTTPException 401
                   (TokenValidationFailed (KeyNotFound (JStr "k1"))))
  /\ algorithms_used (calls v) = []
  /\ after v = after (get_jwks_keys 1000 (serves (jwks [entry "k2"])) ready).
Proof.
  apply (validate_token_unknown_kid ready 1000 (serves (jwks [entry "k2"]))
           "alice" [("alg", JStr "RS256"); ("kid", JStr "k1")]
           {[ KStr "k2" := entry "k2" ]} (KStr "k1")).
  - reflexivity.
  - reflexivity.
  - vm_compute. reflexivity.
  - reflexivity.
  - vm_compute. reflexivity.
Defined.

Lemma validate_token_decode_verdict_witness :
  let g := getSigningKey 1100 down (JStr "k1") warm in
  let v := validate_token 1100 down "forged" warm in
  ended v = Err (HTTPException 401
                   (TokenValidationFailed
                      (JoseMessage "Signature verification failed.")))
  /\ calls v = (calls g ++ [EvDecode ["RS256"]])%list
  /\ after v = after g.
Proof.
  apply (validate_token_decode_verdict warm 1100 down "forged"
           [("alg", JStr "RS256"); ("kid", JStr "k1")] (entry "k1")
           (JStr "https://idp/realms/r")).
  - reflexivity.
  - reflexivity.
  - vm_compute. reflexivity.
  - reflexivity.
Defined.

Lemma validate_token_missing_issuer_witness :
  let v := validate_token 1100 down "alice" Cases.no_issuer in
  ended v = Err (KeyError "issuer")
  /\ (KeyError "issuer" = KeyError "issuer" \/ KeyError "issuer" = TypeError)
  /\ algorithms_used (calls v) = [].
Proof.
  apply (validate_token_missing_issuer Cases.no_issuer 1100 down "alice"
           [("alg", JStr "RS256"); ("kid", JStr "k1")] (entry "k1")).
  - reflexivity.
  - reflexivity.
  - vm_compute. reflexivity.
  - reflexivity.
Defined.

Lemma validate_token_without_jwks_uri_witness :
  validate_token 2000 down "alice" fresh_instance
  = Run (Err TypeError) fresh_instance [].
Proof.
  apply (validate_token_without_jwks_uri fresh_instance 2000 down "alice"
           [("alg", JStr "RS256"); ("kid", JStr "k1")]).
  - reflexivity.
  - unfold stale. cbn. lia.
  - reflexivity.
  - reflexivity.
  - reflexivity.
Defined.

Lemma validate_token_fresh_is_read_only_witness :
  let v := validate_token 1100 (serves (jwks [entry "k2"])) "alice" warm in
  after v = warm /\ fetches (calls v) = 0%nat.
Proof.
  apply validate_token_fresh_is_read_only. apply not_stale_warm_1100.
Defined.

Lemma has_role_string_roles_match_substrings_witness :
  let payload := [("realm_access", JObj [("roles", JStr "superadmin")])] in
  exists b,
    has_role payload ["admin"] = Ok b
    /\ (b = true <->
        exists role before behind,
          In role ["admin"] /\ "superadmin" = before +:+ role +:+ behind).
Proof.
  apply (has_role_string_roles_match_substrings
           [("realm_access", JObj [("roles", JStr "superadmin")])]
           "superadmin" ["admin"]).
  - reflexivity.
  - discriminate.
Defined.

Lemma has_role_malformed_claims_raise_witness :
  has_role [("realm_access", JStr "admin")] ["admin"] = Err AttributeError
  /\ has_role [("realm_access", JObj [("roles", JNull)])] ["admin"]
     = Err TypeError.
Proof.
  split.
  - destruct (has_role_malformed_claims_raise
                [("realm_access", JStr "admin")] ["admin"]) as [Hattr _];
      [discriminate|].
    apply (Hattr (JStr "admin")); [reflexivity|discriminate].
  - destruct (has_role_malformed_claims_raise
                [("realm_access", JObj [("roles", JNull)])] ["admin"])
      as [_ Htype]; [discriminate|].
    apply (Htype JNull); [reflexivity|by left].
Defined.

Lemma has_role_more_required_roles_witness :
  has_role (token_payload Cases.alice) (["user"] ++ ["admin"]) = Ok true.
Proof.
  apply has_role_more_required_roles; [discriminate|reflexivity].
Defined.

Lemma require_roles_grants_any_of_witness :
  let r := require_roles ["admin"; "user"] 1100 down (bearer "alice") warm in
  (ended r = Ok Cases.alice <->
   ["admin"; "user"] = []
   \/ exists role, In role ["admin"; "user"] /\ In (JStr role) [JStr "user"])
  /\ (ended r = Ok Cases.alice
      \/ ended r = Err (HTTPException 403 (AccessDenied ["admin"; "user"]))).
Proof.
  apply (require_roles_grants_any_of warm 1100 down (bearer "alice")
           ["admin"; "user"] Cases.alice [JStr "user"]).
  - vm_compute. reflexivity.
  - reflexivity.
Defined.

Lemma require_roles_needs_authentication_witness :
  ended (require_roles ["user"] 1100 down (bearer "forged") warm)
  = Err (HTTPException 401
           (TokenValidationFailed
              (JoseMessage "Signature verification failed.")))
  /\ ended (require_auth 1100 down (bearer "alice") warm) = Ok Cases.alice.
Proof.
  destruct (require_roles_needs_authentication warm 1100 down (bearer "forged")
              ["user"]) as [Hfail _].
  destruct (require_roles_needs_authentication warm 1100 down (bearer "alice")
              ["user"]) as [_ Hpass].
  split.
  - apply Hfail. vm_compute. reflexivity.
  - apply Hpass. vm_compute. reflexivity.
Defined.

Lemma get_current_user_mirrors_require_auth_witness :
  ended (get_current_user 1100 down (bearer "forged") warm)
  <> Err (HTTPException 401
            (TokenValidationFailed
               (JoseMessage "Signature verification failed."))).
Proof.
  destruct (get_current_user_mirrors_require_auth warm 1100 down
              (bearer "forged")) as (_ & _ & _ & Hnever).
  apply Hnever.
Defined.

Lemma admin_endpoint_needs_admin_witness :
  exists u,
    AdminBody Cases.root = AdminBody u
    /\ ended (require_auth (H:=Cases.jose) 1100 down (bearer "root") Cases.warm)
       = Ok u
    /\ has_role (token_payload u) ["admin"] = Ok true
    /\ (forall rs, roles u = JArr rs -> In (JStr "admin") rs).
Proof.
  apply (admin_endpoint_needs_admin (H:=Cases.jose) Cases.warm 1100 down
           (bearer "root") (AdminBody Cases.root)).
  vm_compute. reflexivity.
Defined.

Lemma new_instance_cannot_validate_witness :
  validate_token 2000 down "alice"
    (__init__ (fun _ => None) None None None 300)
  = Run (if 2000 >? 300 then Err TypeError
         else Err (HTTPException 401
                     (TokenValidationFailed (KeyNotFound (JStr "k1")))))
      (__init__ (fun _ => None) None None None 300) [].
Proof.
  apply (new_instance_cannot_validate (fun _ => None) None None None 300 2000
           down "alice" [("alg", JStr "RS256"); ("kid", JStr "k1")] (KStr "k1"));
    reflexivity.
Defined.

End MoreRuns.
